(** * Appointment backend: the handlers of [app.js] and of its deployment variant

    A shallow embedding of the Express handlers and of the seed routine,
    run against an in-memory image of the [Appointment] table.

    Conventions of the embedding.
    - A JavaScript string is a Rocq [string], one character per code unit
      (code units above 255 do not occur in it).
    - A request field is a JavaScript value as [express.json()] delivers it:
      absent ([Undefined]), [null], a boolean, an integer-valued number or a
      string.
    - The table is the list of its rows. A value bound to a [?] placeholder is
      stored and compared as it is: the conversions MySQL applies between
      literal forms of one value ([1] and ['1'], ['9:00'] and ['09:00:00']) are
      not part of the model. A comparison with [NULL] selects no row.
      Where a statement depends on a comparison that selects no row, it is
      made for stores and requests in canonical form ([canonical_store],
      [canonical_booking], [canonical_update]): among canonical literals no
      two write the same value, so the literal decides the comparison.
    - Queries are executed one after the other, in the order in which the
      handlers issue them on the single connection, and the store answers
      them: of the [err] branches of the callbacks only the one after the
      update's availability check is reached, when its scalar subquery finds
      several rows. *)

From Stdlib Require Import ZArith QArith List String Ascii Bool Lia.
From Stdlib Require Import Sorted Permutation.
Import ListNotations.

Local Open Scope string_scope.
Local Open Scope list_scope.
Local Open Scope Z_scope.

(** ** JavaScript values and the built-ins the handlers call *)

Module JS.

Inductive value : Type :=
| Undefined
| Null
| Boolean (b : bool)
| Num (n : Z)
| Str (s : string).

(** [!v] is [negb (truthy v)]: ToBoolean of the language. *)
Definition truthy (v : value) : bool :=
  match v with
  | Undefined | Null => false
  | Boolean b => b
  | Num n => negb (n =? 0)
  | Str s => negb (s =? "")%string
  end.

(** [a || b] on values. *)
Definition or_else (a b : value) : value := if truthy a then a else b.

Definition eqb (a b : value) : bool :=
  match a, b with
  | Undefined, Undefined => true
  | Null, Null => true
  | Boolean x, Boolean y => Bool.eqb x y
  | Num x, Num y => x =? y
  | Str x, Str y => (x =? y)%string
  | _, _ => false
  end.

(** The outcome of evaluating an expression: a value, or a thrown exception. *)
Inductive completion (A : Type) : Type :=
| Return (a : A)
| Throw.
Arguments Return {A} a.
Arguments Throw {A}.

(** *** [Number] applied to a string

    The result is kept as the exact mathematical value of the literal; the
    rounding to a double is applied where the result is compared. *)
Inductive number : Type :=
| NaN
| Infinity (negative : bool)
| Finite (q : Q).

Definition code (c : ascii) : N := N_of_ascii c.

Definition is_digit (c : ascii) : bool := ((48 <=? code c) && (code c <=? 57))%N.

Definition is_hex_digit (c : ascii) : bool :=
  (is_digit c || ((65 <=? code c) && (code c <=? 70))
              || ((97 <=? code c) && (code c <=? 102)))%N.

Definition is_octal_digit (c : ascii) : bool := ((48 <=? code c) && (code c <=? 55))%N.

Definition is_binary_digit (c : ascii) : bool := ((48 <=? code c) && (code c <=? 49))%N.

(** StrWhiteSpaceChar: TAB, LF, VT, FF, CR, SP and NBSP. *)
Definition is_space (c : ascii) : bool :=
  ((code c =? 9) || (code c =? 10) || (code c =? 11) || (code c =? 12)
   || (code c =? 13) || (code c =? 32) || (code c =? 160))%N.

Definition digit_value (c : ascii) : Z :=
  if is_digit c then Z.of_N (code c) - 48
  else if (97 <=? code c)%N then Z.of_N (code c) - 87
  else Z.of_N (code c) - 55.

Definition numeral (base : Z) (ds : list ascii) : Z :=
  fold_left (fun acc c => base * acc + digit_value c) ds 0.

Fixpoint span (p : ascii -> bool) (l : list ascii) : list ascii * list ascii :=
  match l with
  | c :: l' =>
      if p c then let (a, b) := span p l' in (c :: a, b) else ([], l)
  | [] => ([], [])
  end.

Fixpoint drop_space (l : list ascii) : list ascii :=
  match l with
  | c :: l' => if is_space c then drop_space l' else l
  | [] => []
  end.

Definition trim (l : list ascii) : list ascii :=
  rev (drop_space (rev (drop_space l))).

Definition nonempty {A : Type} (l : list A) : bool :=
  match l with [] => false | _ => true end.

(** ExponentPart_opt, which must reach the end of the literal. *)
Definition exponent (l : list ascii) : option Z :=
  match l with
  | [] => Some 0
  | c :: r =>
      if (c =? "e")%char || (c =? "E")%char then
        let (sign, ds) :=
          match r with
          | s :: r' =>
              if (s =? "+")%char then (1, r')
              else if (s =? "-")%char then (-1, r')
              else (1, r)
          | [] => (1, r)
          end in
        if nonempty ds && forallb is_digit ds
        then Some (sign * numeral 10 ds) else None
      else None
  end.

Definition scale (m e : Z) : Q := inject_Z m * Qpower (10 # 1) e.

(** StrUnsignedDecimalLiteral other than [Infinity]. *)
Definition unsigned_decimal (l : list ascii) : option Q :=
  let (ip, r1) := span is_digit l in
  match r1 with
  | c :: r2 =>
      if (c =? ".")%char then
        let (fp, r3) := span is_digit r2 in
        if nonempty ip || nonempty fp then
          match exponent r3 with
          | Some e => Some (scale (numeral 10 (ip ++ fp)) (e - Z.of_nat (List.length fp)))
          | None => None
          end
        else None
      else if nonempty ip then
        match exponent r1 with
        | Some e => Some (scale (numeral 10 ip) e)
        | None => None
        end
      else None
  | [] => if nonempty ip then Some (scale (numeral 10 ip) 0) else None
  end.

Definition infinity_chars : list ascii := list_ascii_of_string "Infinity".

Definition chars_eqb (a b : list ascii) : bool :=
  (string_of_list_ascii a =? string_of_list_ascii b)%string.

Definition unsigned_literal (negative : bool) (l : list ascii) : number :=
  if chars_eqb l infinity_chars then Infinity negative
  else match unsigned_decimal l with
       | Some q => Finite (if negative then - q else q)
       | None => NaN
       end.

(** StrDecimalLiteral: an optional sign, then the unsigned literal. *)
Definition decimal_literal (l : list ascii) : number :=
  match l with
  | c :: r =>
      if (c =? "+")%char then unsigned_literal false r
      else if (c =? "-")%char then unsigned_literal true r
      else unsigned_literal false l
  | [] => NaN
  end.

(** NonDecimalIntegerLiteral: [0x], [0o], [0b] and their capitals. *)
Definition non_decimal_literal (l : list ascii) : option Q :=
  match l with
  | z :: k :: ds =>
      if (z =? "0")%char && nonempty ds then
        if ((k =? "x")%char || (k =? "X")%char) && forallb is_hex_digit ds
        then Some (inject_Z (numeral 16 ds))
        else if ((k =? "o")%char || (k =? "O")%char) && forallb is_octal_digit ds
        then Some (inject_Z (numeral 8 ds))
        else if ((k =? "b")%char || (k =? "B")%char) && forallb is_binary_digit ds
        then Some (inject_Z (numeral 2 ds))
        else None
      else None
  | _ => None
  end.

(** StringToNumber: white space is stripped at both ends, the empty literal is 0. *)
Definition number_of_chars (l : list ascii) : number :=
  match trim l with
  | [] => Finite 0
  | t =>
      match non_decimal_literal t with
      | Some q => Finite q
      | None => decimal_literal t
      end
  end.

Definition Number (s : string) : number := number_of_chars (list_ascii_of_string s).

(** [x === k] for a number [x] and an integer literal [0 <= k < 2^52]: the
    double nearest to the value of [x] (ties to the even significand, which
    [k] has) is [k]. Around [k > 0] the doubles are [2^(log2 k - 52)] apart,
    and half as far below a power of two; around 0 the nearest ones are
    [2^-1074] away. *)
Definition half_gap_above (k : Z) : Q :=
  if k =? 0 then Qpower (2 # 1) (-1075) else Qpower (2 # 1) (Z.log2 k - 53).

Definition half_gap_below (k : Z) : Q :=
  if k =? 0 then Qpower (2 # 1) (-1075)
  else if k =? 2 ^ Z.log2 k then Qpower (2 # 1) (Z.log2 k - 54)
  else Qpower (2 # 1) (Z.log2 k - 53).

Definition strict_equals (x : number) (k : Z) : bool :=
  match x with
  | Finite q =>
      Qle_bool (inject_Z k - half_gap_below k) q
      && Qle_bool q (inject_Z k + half_gap_above k)
  | _ => false
  end.

(** [s.split(sep)] for a one-character separator. *)
Fixpoint split_chars (sep : ascii) (l : list ascii) : list (list ascii) :=
  match l with
  | [] => [[]]
  | c :: l' =>
      if (c =? sep)%char then [] :: split_chars sep l'
      else match split_chars sep l' with
           | h :: t => (c :: h) :: t
           | [] => [[c]]
           end
  end.

Definition split (sep : ascii) (s : string) : list string :=
  map string_of_list_ascii (split_chars sep (list_ascii_of_string s)).

End JS.

(** ** The [Appointment] table *)

(** Modelled from the spec: the table's declaration is not part of the
    sources. A row is identified by [appointment_id], which the store
    generates from a counter on insertion; the other columns hold what the
    statements bind. *)
Record appointment : Type := mkAppointment {
  appointment_id : Z;
  patient_id : JS.value;
  doctor_id : JS.value;
  appointment_date : JS.value;
  appointment_time : JS.value;
  status : JS.value
}.

Record db : Type := mkDb {
  rows : list appointment;
  auto_increment : Z
}.

Definition empty_db : db := mkDb [] 1.

(** What a query callback receives: [err], or the result. *)
Inductive qres (A : Type) : Type :=
| QErr
| QOk (a : A).
Arguments QErr {A}.
Arguments QOk {A} a.

(** [column = ?]: [undefined] and [null] are bound as [NULL], and a
    comparison with [NULL] is never true. *)
Definition sql_eq (a b : JS.value) : bool :=
  match a, b with
  | (JS.Undefined | JS.Null), _ => false
  | _, (JS.Undefined | JS.Null) => false
  | _, _ => JS.eqb a b
  end.

Definition scheduled : JS.value := JS.Str "Scheduled".

(** [INSERT INTO Appointment (patient_id, doctor_id, appointment_date,
    appointment_time, status) VALUES (?, ?, ?, ?, 'Scheduled')] *)
Definition insertQuery (s : db) (p d date time : JS.value) : qres db :=
  QOk (mkDb (rows s ++ [mkAppointment (auto_increment s) p d date time scheduled])
            (auto_increment s + 1)).

(** [SELECT * FROM Appointment WHERE doctor_id = ? AND appointment_date = ?
    AND appointment_time = ?] *)
Definition slot_taken_by (d date time : JS.value) (r : appointment) : bool :=
  sql_eq (doctor_id r) d && sql_eq (appointment_date r) date
  && sql_eq (appointment_time r) time.

Definition checkDoctorAvailabilityQuery (s : db) (d date time : JS.value)
  : qres (list appointment) :=
  QOk (filter (slot_taken_by d date time) (rows s)).

(** [SELECT * FROM Appointment WHERE patient_id = ? AND doctor_id = ? AND
    appointment_date = ? AND appointment_time = ?] *)
Definition same_booking (p d date time : JS.value) (r : appointment) : bool :=
  sql_eq (patient_id r) p && slot_taken_by d date time r.

Definition checkQuery (s : db) (p d date time : JS.value) : qres (list appointment) :=
  QOk (filter (same_booking p d date time) (rows s)).

Definition has_id (aid : Z) (r : appointment) : bool := appointment_id r =? aid.

(** The scalar subquery [(SELECT doctor_id FROM Appointment WHERE
    appointment_id = ?)]: [NULL] when no row matches, an error when more than
    one does. *)
Definition doctor_of (s : db) (aid : Z) : qres JS.value :=
  match filter (has_id aid) (rows s) with
  | [] => QOk JS.Null
  | [r] => QOk (doctor_id r)
  | _ => QErr
  end.

(** [SELECT * FROM Appointment WHERE doctor_id = (subquery) AND
    appointment_date = ? AND appointment_time = ? AND appointment_id != ?] *)
Definition checkAvailabilityQuery (s : db) (aid : Z) (date time : JS.value)
  : qres (list appointment) :=
  match doctor_of s aid with
  | QErr => QErr
  | QOk d =>
      QOk (filter (fun r => slot_taken_by d date time r && negb (has_id aid r)) (rows s))
  end.

Definition reschedule (date time st : JS.value) (r : appointment) : appointment :=
  mkAppointment (appointment_id r) (patient_id r) (doctor_id r) date time st.

(** [UPDATE Appointment SET appointment_date = ?, appointment_time = ?,
    status = ? WHERE appointment_id = ?]. The result is the new table and
    [affectedRows], which the driver's default flags make the number of rows
    matched. *)
Definition updateQuery (s : db) (date time st : JS.value) (aid : Z) : qres (db * nat) :=
  QOk (mkDb (map (fun r => if has_id aid r then reschedule date time st r else r) (rows s))
            (auto_increment s),
       List.length (filter (has_id aid) (rows s))).

(** [DELETE FROM Appointment WHERE appointment_id = ?], with [affectedRows]. *)
Definition deleteQuery (s : db) (aid : Z) : qres (db * nat) :=
  QOk (mkDb (filter (fun r => negb (has_id aid r)) (rows s)) (auto_increment s),
       List.length (filter (has_id aid) (rows s))).

(** ** Requests and responses *)

(** [req.body]: a field the request does not carry is [Undefined]. *)
Module Body.
Record t : Type := make {
  patient_id : JS.value;
  doctor_id : JS.value;
  appointment_date : JS.value;
  appointment_time : JS.value;
  status : JS.value
}.
End Body.

(** [res.status(c).json({ message: m })], or an exception that leaves the
    handler, which Express answers with status 500. *)
Inductive response : Type :=
| Json (code : Z) (message : string)
| Uncaught.

Definition http_status (r : response) : Z :=
  match r with
  | Json c _ => c
  | Uncaught => 500
  end.

Definition msg_required : string := "All fields are required".
Definition msg_interval : string :=
  "Appointment time must be in 30-minute intervals (e.g., 10:00, 10:30)".
Definition msg_booked : string := "Doctor is already booked at this time".
Definition msg_success : string := "Appointment booked successfully!".
Definition msg_not_found : string := "Appointment not found".
Definition msg_deleted : string := "Appointment deleted successfully".
Definition msg_updated : string := "Appointment updated successfully".
Definition msg_conflict : string := "Another appointment already exists at this time".
Definition msg_date_time : string := "Appointment date and time are required".

(** A seed tuple of [insertDefaultAppointments]. *)
Definition appt (p d : Z) (date time : string) : Body.t :=
  Body.make (JS.Num p) (JS.Num d) (JS.Str date) (JS.Str time) JS.Undefined.

(** [appointments.forEach(appt => db.query(checkQuery, ..., callback))]: the
    loop issues every check before a callback runs, so each check reads the
    table as the routine found it, and the inserts of the callbacks follow in
    the order of the tuples. The two files differ only in what a callback
    does with [err], which these two queries never report in the model. *)
Definition seed_missing (s : db) (a : Body.t) : bool :=
  match checkQuery s (Body.patient_id a) (Body.doctor_id a)
                     (Body.appointment_date a) (Body.appointment_time a) with
  | QErr => false
  | QOk results => (List.length results =? 0)%nat
  end.

Definition seed_insert (s : db) (a : Body.t) : db :=
  match insertQuery s (Body.patient_id a) (Body.doctor_id a)
                      (Body.appointment_date a) (Body.appointment_time a) with
  | QErr => s
  | QOk s' => s'
  end.

Definition seed_with (appointments : list Body.t) (s : db) : db :=
  fold_left seed_insert (filter (seed_missing s) appointments) s.

(** ** [app.js] *)

Module App.

(** [const [hours, minutes] = time.split(':').map(Number);
     return minutes === 0 || minutes === 30;]
    A value that is not a string has no [split]: the call throws. *)
Definition isValidTimeSlot (time : JS.value) : JS.completion bool :=
  match time with
  | JS.Str s =>
      JS.Return
        match map JS.Number (JS.split ":" s) with
        | _ :: minutes :: _ => JS.strict_equals minutes 0 || JS.strict_equals minutes 30
        | _ => false
        end
  | _ => JS.Throw
  end.

(** [app.post('/book-appointment', ...)] *)
Definition book_appointment (s : db) (body : Body.t) : db * response :=
  let patient_id := Body.patient_id body in
  let doctor_id := Body.doctor_id body in
  let appointment_date := Body.appointment_date body in
  let appointment_time := Body.appointment_time body in
  if negb (JS.truthy patient_id) || negb (JS.truthy doctor_id)
     || negb (JS.truthy appointment_date) || negb (JS.truthy appointment_time)
  then (s, Json 400 msg_required)
  else
    match isValidTimeSlot appointment_time with
    | JS.Throw => (s, Uncaught)
    | JS.Return false => (s, Json 400 msg_interval)
    | JS.Return true =>
        match checkDoctorAvailabilityQuery s doctor_id appointment_date appointment_time with
        | QErr => (s, Json 500 "Internal server error")
        | QOk results =>
            if (0 <? List.length results)%nat then (s, Json 400 msg_booked)
            else
              match insertQuery s patient_id doctor_id appointment_date appointment_time with
              | QErr => (s, Json 500 "Failed to book appointment")
              | QOk s' => (s', Json 201 msg_success)
              end
        end
    end.

(** [app.put('/appointments/:appointment_id', ...)]; the path segment is
    taken as the integer it denotes. *)
Definition update_appointment (s : db) (appointmentId : Z) (body : Body.t)
  : db * response :=
  let appointment_date := Body.appointment_date body in
  let appointment_time := Body.appointment_time body in
  let status := Body.status body in
  if negb (JS.truthy appointment_date) || negb (JS.truthy appointment_time)
  then (s, Json 400 msg_date_time)
  else
    match isValidTimeSlot appointment_time with
    | JS.Throw => (s, Uncaught)
    | JS.Return false => (s, Json 400 msg_interval)
    | JS.Return true =>
        match checkAvailabilityQuery s appointmentId appointment_date appointment_time with
        | QErr => (s, Json 500 "Server error")
        | QOk results =>
            if (0 <? List.length results)%nat
            then (s, Json 400 msg_conflict)
            else
              match updateQuery s appointment_date appointment_time
                                (JS.or_else status scheduled) appointmentId with
              | QErr => (s, Json 500 "Failed to update appointment")
              | QOk (s', affectedRows) =>
                  if (affectedRows =? 0)%nat then (s', Json 404 msg_not_found)
                  else (s', Json 200 msg_updated)
              end
        end
    end.

(** [app.delete('/appointments/:appointment_id', ...)] *)
Definition delete_appointment (s : db) (appointmentId : Z) : db * response :=
  match deleteQuery s appointmentId with
  | QErr => (s, Json 500 "Failed to delete appointment")
  | QOk (s', affectedRows) =>
      if (affectedRows =? 0)%nat then (s', Json 404 msg_not_found)
      else (s', Json 200 msg_deleted)
  end.

Definition appointments : list Body.t :=
  [ appt 1 1 "2025-04-11" "09:00"; appt 2 1 "2025-04-11" "09:30";
    appt 3 1 "2025-04-11" "10:00"; appt 4 1 "2025-04-11" "10:30";
    appt 5 1 "2025-04-11" "11:00";
    appt 6 2 "2025-04-11" "09:00"; appt 7 2 "2025-04-11" "09:30";
    appt 8 2 "2025-04-11" "10:00"; appt 9 2 "2025-04-11" "10:30";
    appt 10 2 "2025-04-11" "11:00";
    appt 1 3 "2025-04-12" "09:00"; appt 2 3 "2025-04-12" "09:30";
    appt 3 3 "2025-04-12" "10:00"; appt 4 3 "2025-04-12" "10:30";
    appt 5 3 "2025-04-12" "11:00";
    appt 6 4 "2025-04-13" "09:00"; appt 7 4 "2025-04-13" "09:30";
    appt 8 4 "2025-04-13" "10:00"; appt 9 4 "2025-04-13" "10:30";
    appt 10 4 "2025-04-13" "11:00";
    appt 1 5 "2025-04-14" "09:00"; appt 2 5 "2025-04-14" "09:30";
    appt 3 5 "2025-04-14" "10:00"; appt 4 5 "2025-04-14" "10:30";
    appt 5 5 "2025-04-14" "11:00";
    appt 6 1 "2025-04-15" "09:00"; appt 7 1 "2025-04-15" "09:30";
    appt 8 1 "2025-04-15" "10:00"; appt 9 1 "2025-04-15" "10:30";
    appt 10 1 "2025-04-15" "11:00";
    appt 1 2 "2025-04-16" "09:00"; appt 2 2 "2025-04-16" "09:30";
    appt 3 2 "2025-04-16" "10:00"; appt 4 2 "2025-04-16" "10:30";
    appt 5 2 "2025-04-16" "11:00";
    appt 6 3 "2025-04-17" "09:00"; appt 7 3 "2025-04-17" "09:30";
    appt 8 3 "2025-04-17" "10:00"; appt 9 3 "2025-04-17" "10:30";
    appt 10 3 "2025-04-17" "11:00";
    appt 1 4 "2025-04-18" "09:00"; appt 2 4 "2025-04-18" "09:30";
    appt 3 4 "2025-04-18" "10:00"; appt 4 4 "2025-04-18" "10:30";
    appt 5 4 "2025-04-18" "11:00" ].

Definition insertDefaultAppointments (s : db) : db := seed_with appointments s.

End App.

(** ** The deployment variant ([src/unnamed/part_000]) *)

Module Variant.

(** [app.post('/book-appointment', ...)]: no time-slot validation here. *)
Definition book_appointment (s : db) (body : Body.t) : db * response :=
  let patient_id := Body.patient_id body in
  let doctor_id := Body.doctor_id body in
  let appointment_date := Body.appointment_date body in
  let appointment_time := Body.appointment_time body in
  if negb (JS.truthy patient_id) || negb (JS.truthy doctor_id)
     || negb (JS.truthy appointment_date) || negb (JS.truthy appointment_time)
  then (s, Json 400 msg_required)
  else
    match checkDoctorAvailabilityQuery s doctor_id appointment_date appointment_time with
    | QErr => (s, Json 500 "Internal server error")
    | QOk results =>
        if (0 <? List.length results)%nat then (s, Json 400 msg_booked)
        else
          match insertQuery s patient_id doctor_id appointment_date appointment_time with
          | QErr => (s, Json 500 "Failed to book appointment")
          | QOk s' => (s', Json 201 msg_success)
          end
    end.

Definition appointments : list Body.t :=
  [ appt 1 1 "2025-04-11" "09:00"; appt 2 1 "2025-04-11" "09:30";
    appt 3 1 "2025-04-11" "10:00"; appt 4 1 "2025-04-11" "10:30";
    appt 5 1 "2025-04-11" "11:00" ].

Definition insertDefaultAppointments (s : db) : db := seed_with appointments s.

End Variant.

(** ** Properties of the table *)

(** The primary key: no two rows carry the same [appointment_id]. *)
Definition pk_unique (s : db) : Prop := NoDup (map appointment_id (rows s)).

(** The counter is ahead of every identifier in use. *)
Definition counter_fresh (s : db) : Prop :=
  forall r, In r (rows s) -> appointment_id r < auto_increment s.

(** The store keeps its key: identifiers are unique and behind the counter. *)
Definition keyed (s : db) : Prop := pk_unique s /\ counter_fresh s.

Definition has_row (s : db) (aid : Z) : Prop :=
  exists r, In r (rows s) /\ appointment_id r = aid.

Definition is_null (v : JS.value) : bool :=
  match v with
  | JS.Undefined | JS.Null => true
  | _ => false
  end.

(** The slot of a row: its (doctor_id, appointment_date, appointment_time). *)
Definition slot (r : appointment) : JS.value * JS.value * JS.value :=
  (doctor_id r, appointment_date r, appointment_time r).

Definition slot_held (s : db) (sl : JS.value * JS.value * JS.value) : Prop :=
  exists r, In r (rows s) /\ slot r = sl.


(** Two rows of the table that are different appointments on one slot. *)
Definition double_booked (s : db) : Prop :=
  exists r1 r2, In r1 (rows s) /\ In r2 (rows s)
                /\ appointment_id r1 <> appointment_id r2 /\ slot r1 = slot r2.


(** The quadruple the seed routine looks for, on a row and on a tuple. *)
Definition booking (r : appointment) : JS.value * JS.value * JS.value * JS.value :=
  (patient_id r, doctor_id r, appointment_date r, appointment_time r).

Definition requested_booking (a : Body.t) : JS.value * JS.value * JS.value * JS.value :=
  (Body.patient_id a, Body.doctor_id a, Body.appointment_date a, Body.appointment_time a).

Definition booking_exists (s : db) (q : JS.value * JS.value * JS.value * JS.value) : Prop :=
  exists r, In r (rows s) /\ booking r = q.

(** Decision procedures for stores given in full. *)
Definition slot_eqb (a b : JS.value * JS.value * JS.value) : bool :=
  let '(d1, date1, time1) := a in
  let '(d2, date2, time2) := b in
  JS.eqb d1 d2 && JS.eqb date1 date2 && JS.eqb time1 time2.

Definition booking_eqb (a b : JS.value * JS.value * JS.value * JS.value) : bool :=
  let '(p1, d1, date1, time1) := a in
  let '(p2, d2, date2, time2) := b in
  JS.eqb p1 p2 && slot_eqb (d1, date1, time1) (d2, date2, time2).

Fixpoint distinct {A : Type} (eqb : A -> A -> bool) (l : list A) : bool :=
  match l with
  | [] => true
  | x :: l' => negb (existsb (eqb x) l') && distinct eqb l'
  end.

Definition distinct_slots (l : list appointment) : bool :=
  distinct slot_eqb (map slot l).

(** ** Requests *)

(** The slot a request asks for. *)
Definition requested_slot (body : Body.t) : JS.value * JS.value * JS.value :=
  (Body.doctor_id body, Body.appointment_date body, Body.appointment_time body).

(** The four fields of a booking pass the handler's required-field test. *)
Definition fields_present (body : Body.t) : Prop :=
  JS.truthy (Body.patient_id body) = true
  /\ JS.truthy (Body.doctor_id body) = true
  /\ JS.truthy (Body.appointment_date body) = true
  /\ JS.truthy (Body.appointment_time body) = true.

(** A valid booking request: the fields are present and the time is on a
    30-minute boundary. *)
Definition valid_booking (body : Body.t) : Prop :=
  fields_present body
  /\ App.isValidTimeSlot (Body.appointment_time body) = JS.Return true.


(** A booking field that is present and falsy: an identifier 0, or an empty
    string. *)
Definition falsy_field (body : Body.t) : Prop :=
  Body.patient_id body = JS.Num 0 \/ Body.doctor_id body = JS.Num 0
  \/ Body.patient_id body = JS.Str "" \/ Body.doctor_id body = JS.Str ""
  \/ Body.appointment_date body = JS.Str "" \/ Body.appointment_time body = JS.Str "".

(** A booking field that the request does not carry. *)
Definition absent_field (body : Body.t) : Prop :=
  Body.patient_id body = JS.Undefined \/ Body.doctor_id body = JS.Undefined
  \/ Body.appointment_date body = JS.Undefined
  \/ Body.appointment_time body = JS.Undefined.

Definition chars (s : string) : list ascii := list_ascii_of_string s.

(** The minutes part of a time string: the second of the pieces that
    [split(':')] yields, when there is one. *)
Definition minutes_part (s : string) : option string :=
  match JS.split ":"%char s with
  | _ :: minutes :: _ => Some minutes
  | _ => None
  end.

(** A time text off the :00 and :30 minute marks, told by its writing: it
    reads hours ':' minutes, or hours ':' minutes ':' seconds, and the
    minutes are decimal digits that denote neither 0 nor 30. *)
Inductive off_half_hour : string -> Prop :=
| off_minutes (hours minutes : string) :
    ~ In ":"%char (chars hours) ->
    chars minutes <> [] -> forallb JS.is_digit (chars minutes) = true ->
    JS.numeral 10 (chars minutes) <> 0 -> JS.numeral 10 (chars minutes) <> 30 ->
    off_half_hour (hours ++ ":" ++ minutes)%string
| off_minutes_seconds (hours minutes seconds : string) :
    ~ In ":"%char (chars hours) ->
    chars minutes <> [] -> forallb JS.is_digit (chars minutes) = true ->
    JS.numeral 10 (chars minutes) <> 0 -> JS.numeral 10 (chars minutes) <> 30 ->
    off_half_hour (hours ++ ":" ++ minutes ++ ":" ++ seconds)%string.

(** ** Canonical forms

    One value of a column has several literals: the store takes [8] and
    ['8'] for one identifier, ['14:30'] and ['14:30:00'] for one time, and a
    number such as [20250509] for a date. Of the literals below no two write
    the same value, whether the column is typed or holds text: on them
    comparing the literals is comparing the values. *)










(** ** Outcomes *)

(** The row a successful booking adds, and the store with a row added. *)
Definition booked_row (s : db) (body : Body.t) : appointment :=
  mkAppointment (auto_increment s) (Body.patient_id body) (Body.doctor_id body)
    (Body.appointment_date body) (Body.appointment_time body) scheduled.

Definition with_row (s : db) (r : appointment) : db :=
  mkDb (rows s ++ [r]) (auto_increment s + 1).

(** The row [r] after the update a request asks for. *)
Definition updated_row (body : Body.t) (r : appointment) : appointment :=
  mkAppointment (appointment_id r) (patient_id r) (doctor_id r)
    (Body.appointment_date body) (Body.appointment_time body)
    (if JS.truthy (Body.status body) then Body.status body else JS.Str "Scheduled").

(** The rows that inserting the tuples [l] one after the other creates, the
    first of them under the identifier [n]. *)
Fixpoint seeded_rows (n : Z) (l : list Body.t) : list appointment :=
  match l with
  | [] => []
  | a :: l' =>
      mkAppointment n (Body.patient_id a) (Body.doctor_id a)
        (Body.appointment_date a) (Body.appointment_time a) (JS.Str "Scheduled")
      :: seeded_rows (n + 1) l'
  end.

(** The seed routine as it would run if each callback, with its insert,
    completed before the next check was issued. *)
Definition seed_in_turn (appointments : list Body.t) (s : db) : db :=
  fold_left (fun s a => if seed_missing s a then seed_insert s a else s) appointments s.

(** ** Histories *)

(** Reachable stores: the process starts on the store as it is and seeds it;
    requests are served one after the other. *)
Inductive reachable : db -> Prop :=
| reach_empty : reachable empty_db
| reach_start (s : db) :
    reachable s -> reachable (App.insertDefaultAppointments s)
| reach_book (s : db) (body : Body.t) :
    reachable s -> reachable (fst (App.book_appointment s body))
| reach_update (s : db) (aid : Z) (body : Body.t) :
    reachable s -> reachable (fst (App.update_appointment s aid body))
| reach_delete (s : db) (aid : Z) :
    reachable s -> reachable (fst (App.delete_appointment s aid)).


(** ** Stores and requests on which the statements are exercised *)

Definition first_sample_row : appointment :=
  mkAppointment 1 (JS.Num 4) (JS.Num 3) (JS.Str "2025-05-02") (JS.Str "14:00") scheduled.

Definition second_sample_row : appointment :=
  mkAppointment 2 (JS.Num 5) (JS.Num 3) (JS.Str "2025-05-02") (JS.Str "15:00") scheduled.

Definition third_sample_row : appointment :=
  mkAppointment 4 (JS.Num 4) (JS.Num 8) (JS.Str "2025-05-02") (JS.Str "14:30") scheduled.

Definition sample_db : db :=
  mkDb [first_sample_row; second_sample_row; third_sample_row] 5.

(** A booking on a free slot of [sample_db], and one on a slot that is held. *)
Definition sample_body : Body.t := appt 7 3 "2025-05-02" "14:30".


Definition quarter_past_body : Body.t := appt 1 1 "2025-04-11" "09:15".

Definition quarter_past_seconds_body : Body.t := appt 1 1 "2025-04-11" "09:15:00".

Definition zero_patient_quarter_past_body : Body.t :=
  Body.make (JS.Num 0) (JS.Num 1) (JS.Str "2025-04-11") (JS.Str "09:15") JS.Undefined.

Definition late_body : Body.t := appt 1 1 "2025-04-11" "99:30".

Definition first_seed_body : Body.t := appt 1 1 "2025-04-11" "09:00".

Definition numeric_time_body : Body.t :=
  Body.make (JS.Num 1) (JS.Num 1) (JS.Str "2025-04-11") (JS.Num 915) JS.Undefined.

Definition zero_patient_body : Body.t :=
  Body.make (JS.Num 0) (JS.Num 1) (JS.Str "2025-04-11") (JS.Str "09:00") JS.Undefined.

Definition no_patient_body : Body.t :=
  Body.make JS.Undefined (JS.Num 1) (JS.Str "2025-04-11") (JS.Str "09:00") JS.Undefined.

(** An update request that carries a date and a time only. *)
Definition move_body (date time : string) : Body.t :=
  Body.make JS.Undefined JS.Undefined (JS.Str date) (JS.Str time) JS.Undefined.

(** The store after: start on the empty store (seed), delete appointment 1,
    book its slot for patient 99; then the store after a restart (seed). *)
Definition rebooked_body : Body.t := appt 99 1 "2025-04-11" "09:00".

Definition before_restart_db : db :=
  let s0 := App.insertDefaultAppointments empty_db in
  let s1 := fst (App.delete_appointment s0 1) in
  fst (App.book_appointment s1 rebooked_body).

Definition restarted_db : db := App.insertDefaultAppointments before_restart_db.

Definition rebooked_row : appointment :=
  mkAppointment 46 (JS.Num 99) (JS.Num 1) (JS.Str "2025-04-11") (JS.Str "09:00") scheduled.

Definition reseeded_row : appointment :=
  mkAppointment 47 (JS.Num 1) (JS.Num 1) (JS.Str "2025-04-11") (JS.Str "09:00") scheduled.



(** ** Further vocabulary *)


(** A request field by field like [a], for another patient. *)
Definition for_patient (p : JS.value) (a : Body.t) : Body.t :=
  Body.make p (Body.doctor_id a) (Body.appointment_date a) (Body.appointment_time a)
    JS.Undefined.


(** [valid_booking], decided. *)
Definition valid_bookingb (a : Body.t) : bool :=
  JS.truthy (Body.patient_id a) && JS.truthy (Body.doctor_id a)
  && JS.truthy (Body.appointment_date a) && JS.truthy (Body.appointment_time a)
  && match App.isValidTimeSlot (Body.appointment_time a) with
     | JS.Return true => true
     | _ => false
     end.

(** ** The listings *)

(** The tables the listings join with; of their columns the queries name
    the identifier and [name]. *)
Module Patient.
Record t : Type := make {
  patient_id : JS.value;
  name : JS.value
}.
End Patient.

Module Doctor.
Record t : Type := make {
  doctor_id : JS.value;
  name : JS.value
}.
End Doctor.

(** A row of a listing: [a.*] and the name joined to it. *)
Record listed : Type := mkListed {
  listed_row : appointment;
  joined_name : JS.value
}.

(** [res.status(c).json(results)], or [res.status(c).json({ message: m })]. *)
Inductive listing : Type :=
| Rows (code : Z) (results : list listed)
| Failure (code : Z) (message : string).

(** [ORDER BY]: the rows in ascending order of a comparison. Rows that
    compare equal are left in the order of the table, which the store does
    not promise; no statement below depends on it. *)
Fixpoint insert_by {A : Type} (le : A -> A -> bool) (x : A) (l : list A) : list A :=
  match l with
  | [] => [x]
  | y :: l' => if le x y then x :: l else y :: insert_by le x l'
  end.

Definition order_by {A : Type} (le : A -> A -> bool) (l : list A) : list A :=
  fold_right (insert_by le) [] l.

Section Listings.

(** The declarations of the columns are not part of the sources. What they
    decide is taken as given: how the store reads the text of a path segment
    or of a query parameter when it compares it with an identifier column,
    and how it orders the dates and the times. *)
Variable as_id : JS.value -> JS.value.
Variables date_le time_le : JS.value -> JS.value -> bool.

Definition by_time (x y : listed) : bool :=
  time_le (appointment_time (listed_row x)) (appointment_time (listed_row y)).

(** [ORDER BY a.appointment_date, a.appointment_time]: by date, and by time
    among equal dates. *)
Definition by_date_time (x y : listed) : bool :=
  if date_le (appointment_date (listed_row x)) (appointment_date (listed_row y))
  then if date_le (appointment_date (listed_row y)) (appointment_date (listed_row x))
       then by_time x y
       else true
  else false.

(** [SELECT a.*, p.name AS patient_name FROM Appointment a
     JOIN Patient p ON a.patient_id = p.patient_id
     WHERE a.doctor_id = ? AND a.appointment_date = ?
     ORDER BY a.appointment_time ASC] *)
Definition with_patient (patients : list Patient.t) (a : appointment) : list listed :=
  map (fun p => mkListed a (Patient.name p))
      (filter (fun p => sql_eq (patient_id a) (Patient.patient_id p)) patients).

Definition doctor_query (patients : list Patient.t) (s : db) (doctorId date : JS.value)
  : qres (list listed) :=
  QOk (order_by by_time
         (flat_map (with_patient patients)
            (filter (fun a => sql_eq (doctor_id a) (as_id doctorId)
                              && sql_eq (appointment_date a) date) (rows s)))).

(** [app.get('/appointments/doctor/:doctor_id', ...)], the same in both files. *)
Definition list_doctor_appointments (patients : list Patient.t) (s : db)
    (doctorId appointmentDate : JS.value) : listing :=
  if negb (JS.truthy appointmentDate) then Failure 400 "Missing appointment date"
  else
    match doctor_query patients s doctorId appointmentDate with
    | QErr => Failure 500 "Failed to fetch appointments"
    | QOk results => Rows 200 results
    end.

(** [SELECT a.*, d.name AS doctor_name FROM Appointment a
     JOIN Doctor d ON a.doctor_id = d.doctor_id
     WHERE a.patient_id = ?
     ORDER BY a.appointment_date, a.appointment_time] *)
Definition with_doctor (doctors : list Doctor.t) (a : appointment) : list listed :=
  map (fun d => mkListed a (Doctor.name d))
      (filter (fun d => sql_eq (doctor_id a) (Doctor.doctor_id d)) doctors).

Definition patient_query (doctors : list Doctor.t) (s : db) (patientId : JS.value)
  : qres (list listed) :=
  QOk (order_by by_date_time
         (flat_map (with_doctor doctors)
            (filter (fun a => sql_eq (patient_id a) (as_id patientId)) (rows s)))).

(** [app.get('/appointments/patient', ...)] of [app.js]. *)
Definition list_patient_appointments (doctors : list Doctor.t) (s : db)
    (patientId : JS.value) : listing :=
  if negb (JS.truthy patientId) then Failure 400 "patient_id is required"
  else
    match patient_query doctors s patientId with
    | QErr => Failure 500 "Error fetching patient appointments"
    | QOk results => Rows 200 results
    end.

End Listings.

(** A reading of identifiers and an order of texts on which the statements
    about the listings are exercised. *)
Definition decimal_id (v : JS.value) : JS.value :=
  match v with
  | JS.Str s => JS.Num (JS.numeral 10 (chars s))
  | _ => v
  end.

Definition text_le (a b : JS.value) : bool :=
  match a, b with
  | JS.Str x, JS.Str y => String.leb x y
  | _, _ => true
  end.

Definition sample_patients : list Patient.t :=
  [ Patient.make (JS.Num 4) (JS.Str "Ada"); Patient.make (JS.Num 7) (JS.Str "Grace") ].

Definition sample_doctors : list Doctor.t :=
  [ Doctor.make (JS.Num 3) (JS.Str "Dr. Hopper"); Doctor.make (JS.Num 8) (JS.Str "Dr. Lovelace") ].

(** ** Auxiliary facts *)

Ltac in_rows H :=
  simpl in H;
  repeat (destruct H as [H | H]; [subst; try discriminate | ]);
  try contradiction.

Lemma db_eta (s : db) : mkDb (rows s) (auto_increment s) = s.
Proof. destruct s; reflexivity. Qed.

Lemma filter_nil_iff {A : Type} (f : A -> bool) (l : list A) :
  filter f l = [] <-> forall x, In x l -> f x = false.
Proof.
  induction l as [|a l IH]; simpl.
  - split; [intros _ x [] | reflexivity].
  - destruct (f a) eqn:E.
    + split; [discriminate | intros H; specialize (H a (or_introl eq_refl)); congruence].
    + rewrite IH. split.
      * intros H x [<- | Hx]; auto.
      * intros H x Hx; apply H; auto.
Qed.

Lemma filter_all {A : Type} (f : A -> bool) (l : list A) :
  (forall x, In x l -> f x = true) -> filter f l = l.
Proof.
  induction l as [|a l IH]; simpl; intros H; [reflexivity|].
  rewrite (H a (or_introl eq_refl)). f_equal. apply IH. intros x Hx; apply H; auto.
Qed.

Lemma map_unchanged {A : Type} (f : A -> A) (l : list A) :
  (forall x, In x l -> f x = x) -> map f l = l.
Proof.
  induction l as [|a l IH]; simpl; intros H; [reflexivity|].
  rewrite (H a (or_introl eq_refl)). f_equal. apply IH. intros x Hx; apply H; auto.
Qed.

Lemma has_id_true (aid : Z) (r : appointment) :
  has_id aid r = true <-> appointment_id r = aid.
Proof. unfold has_id. apply Z.eqb_eq. Qed.

Lemma has_id_false (aid : Z) (r : appointment) :
  has_id aid r = false <-> appointment_id r <> aid.
Proof. unfold has_id. apply Z.eqb_neq. Qed.

Lemma no_row_filter (s : db) (aid : Z) :
  ~ has_row s aid -> filter (has_id aid) (rows s) = [].
Proof.
  intros H. apply filter_nil_iff. intros r Hr. apply has_id_false.
  intros E. apply H. exists r; auto.
Qed.

(** Under the primary key, the rows with a given identifier are at most one,
    and the table splits around it. *)
Lemma pk_split (s : db) (r : appointment) :
  pk_unique s -> In r (rows s) ->
  exists l1 l2, rows s = l1 ++ r :: l2
    /\ (forall x, In x l1 -> appointment_id x <> appointment_id r)
    /\ (forall x, In x l2 -> appointment_id x <> appointment_id r).
Proof.
  unfold pk_unique. intros Hpk Hin.
  destruct (in_split _ _ Hin) as (l1 & l2 & E).
  exists l1, l2. split; [exact E|].
  rewrite E, map_app in Hpk. simpl in Hpk.
  apply NoDup_remove_2 in Hpk.
  split; intros x Hx Heq; apply Hpk; rewrite in_app_iff;
    [left | right]; rewrite <- Heq; apply in_map; exact Hx.
Qed.

Lemma filter_has_id_split (aid : Z) (l1 l2 : list appointment) (r : appointment) :
  appointment_id r = aid ->
  (forall x, In x l1 -> appointment_id x <> aid) ->
  (forall x, In x l2 -> appointment_id x <> aid) ->
  filter (has_id aid) (l1 ++ r :: l2) = [r]
  /\ filter (fun x => negb (has_id aid x)) (l1 ++ r :: l2) = l1 ++ l2.
Proof.
  intros Hr H1 H2.
  assert (F1 : filter (has_id aid) l1 = []).
  { apply filter_nil_iff. intros x Hx. apply has_id_false; auto. }
  assert (F2 : filter (has_id aid) l2 = []).
  { apply filter_nil_iff. intros x Hx. apply has_id_false; auto. }
  assert (G1 : filter (fun x => negb (has_id aid x)) l1 = l1).
  { apply filter_all. intros x Hx. apply negb_true_iff, has_id_false; auto. }
  assert (G2 : filter (fun x => negb (has_id aid x)) l2 = l2).
  { apply filter_all. intros x Hx. apply negb_true_iff, has_id_false; auto. }
  assert (T : has_id aid r = true) by (apply has_id_true; exact Hr).
  rewrite !filter_app. simpl. rewrite T. simpl.
  rewrite F1, F2, G1, G2. split; reflexivity.
Qed.

(** ** Deleting *)

Lemma delete_missing (s : db) (aid : Z) :
  ~ has_row s aid -> App.delete_appointment s aid = (s, Json 404 msg_not_found).
Proof.
  intros H. unfold App.delete_appointment, deleteQuery.
  rewrite (no_row_filter s aid H). simpl.
  rewrite filter_all, db_eta; [reflexivity|].
  intros r Hr. apply negb_true_iff, has_id_false. intros E. apply H. exists r; auto.
Qed.

(** C6. Deleting an identifier that matches no row answers 404 and leaves the
    store as it was; deleting the identifier of a row answers 200 and removes
    that row and no other; a second deletion of the same identifier then
    answers 404. *)
Theorem delete_appointment_spec (s : db) (aid : Z) :
  pk_unique s ->
  (~ has_row s aid ->
     App.delete_appointment s aid = (s, Json 404 msg_not_found))
  /\ (forall r, In r (rows s) -> appointment_id r = aid ->
        exists l1 l2,
          rows s = l1 ++ r :: l2
          /\ App.delete_appointment s aid
             = (mkDb (l1 ++ l2) (auto_increment s), Json 200 msg_deleted)
          /\ App.delete_appointment (mkDb (l1 ++ l2) (auto_increment s)) aid
             = (mkDb (l1 ++ l2) (auto_increment s), Json 404 msg_not_found)).
Proof.
  intros Hpk. split; [apply delete_missing|].
  intros r Hin Hid.
  destruct (pk_split s r Hpk Hin) as (l1 & l2 & E & H1 & H2).
  rewrite Hid in H1, H2.
  exists l1, l2. split; [exact E|].
  destruct (filter_has_id_split aid l1 l2 r Hid H1 H2) as [F G].
  split.
  - unfold App.delete_appointment, deleteQuery. rewrite E, F, G. reflexivity.
  - apply delete_missing. intros (x & Hx & Ex). simpl in Hx.
    apply in_app_iff in Hx. destruct Hx as [Hx | Hx]; [apply (H1 x) | apply (H2 x)]; auto.
Qed.

Lemma sample_db_pk : pk_unique sample_db.
Proof.
  unfold pk_unique. simpl.
  repeat (constructor; [simpl; intuition discriminate|]). constructor.
Defined.

Lemma delete_appointment_spec_witness :
  App.delete_appointment sample_db 3 = (sample_db, Json 404 msg_not_found)
  /\ exists l1 l2,
       rows sample_db = l1 ++ second_sample_row :: l2
       /\ App.delete_appointment sample_db 2 = (mkDb (l1 ++ l2) 5, Json 200 msg_deleted)
       /\ App.delete_appointment (mkDb (l1 ++ l2) 5) 2
          = (mkDb (l1 ++ l2) 5, Json 404 msg_not_found).
Proof.
  destruct (delete_appointment_spec sample_db 3 sample_db_pk) as [H3 _].
  destruct (delete_appointment_spec sample_db 2 sample_db_pk) as [_ H2].
  split.
  - apply H3. intros (r & Hr & Hid). in_rows Hr.
  - apply (H2 second_sample_row); [simpl; auto | reflexivity].
Defined.

(** ** Booking *)

Lemma js_eqb_eq (a b : JS.value) : JS.eqb a b = true <-> a = b.
Proof.
  destruct a, b; simpl; split; intros H; try discriminate; try reflexivity.
  - apply Bool.eqb_prop in H. congruence.
  - injection H as ->. apply Bool.eqb_reflx.
  - apply Z.eqb_eq in H. congruence.
  - injection H as ->. apply Z.eqb_refl.
  - apply String.eqb_eq in H. congruence.
  - injection H as ->. apply String.eqb_refl.
Qed.

Lemma truthy_sql_eq (a b : JS.value) :
  JS.truthy b = true -> (sql_eq a b = true <-> a = b).
Proof.
  intros Hb. destruct b; simpl in Hb; try discriminate;
    (split; intros H;
     [ destruct a; simpl in H; try discriminate; apply js_eqb_eq; exact H
     | subst a; simpl; first [ apply Bool.eqb_reflx | apply Z.eqb_refl | apply String.eqb_refl ] ]).
Qed.

(** For values that pass the required-field test, the availability check
    selects the rows on that very slot. *)
Lemma slot_taken_by_iff (d date time : JS.value) (r : appointment) :
  JS.truthy d = true -> JS.truthy date = true -> JS.truthy time = true ->
  (slot_taken_by d date time r = true <-> slot r = (d, date, time)).
Proof.
  intros Hd Hdate Htime. unfold slot_taken_by, slot.
  rewrite !andb_true_iff, (truthy_sql_eq _ _ Hd), (truthy_sql_eq _ _ Hdate),
    (truthy_sql_eq _ _ Htime).
  split.
  - intros [[-> ->] ->]. reflexivity.
  - intros H. injection H as -> -> ->. auto.
Qed.

Lemma fields_present_test (body : Body.t) :
  fields_present body ->
  negb (JS.truthy (Body.patient_id body)) || negb (JS.truthy (Body.doctor_id body))
  || negb (JS.truthy (Body.appointment_date body))
  || negb (JS.truthy (Body.appointment_time body)) = false.
Proof. intros (-> & -> & -> & ->). reflexivity. Qed.


Lemma slot_held_filter (s : db) (body : Body.t) :
  fields_present body -> slot_held s (requested_slot body) ->
  (0 <? List.length
          (filter (slot_taken_by (Body.doctor_id body) (Body.appointment_date body)
                     (Body.appointment_time body)) (rows s)))%nat = true.
Proof.
  intros (_ & Hd & Hdate & Htime) (r & Hr & Hs).
  apply (slot_taken_by_iff _ _ _ r Hd Hdate Htime) in Hs.
  assert (Hin : In r (filter (slot_taken_by (Body.doctor_id body)
                 (Body.appointment_date body) (Body.appointment_time body)) (rows s))).
  { apply filter_In. auto. }
  destruct (filter _ (rows s)); [destruct Hin | reflexivity].
Qed.


Lemma book_taken (s : db) (body : Body.t) :
  valid_booking body -> slot_held s (requested_slot body) ->
  App.book_appointment s body = (s, Json 400 msg_booked).
Proof.
  intros [Hp Hv] Hheld. unfold App.book_appointment.
  rewrite (fields_present_test body Hp), Hv. unfold checkDoctorAvailabilityQuery.
  rewrite (slot_held_filter s body Hp Hheld). reflexivity.
Qed.









(** ** Required fields *)

Lemma falsy_field_test (body : Body.t) :
  falsy_field body \/ absent_field body ->
  negb (JS.truthy (Body.patient_id body)) || negb (JS.truthy (Body.doctor_id body))
  || negb (JS.truthy (Body.appointment_date body))
  || negb (JS.truthy (Body.appointment_time body)) = true.
Proof.
  intros [H | H]; unfold falsy_field, absent_field in H;
    repeat (destruct H as [H | H]); rewrite H; simpl;
    rewrite ?orb_true_r; reflexivity.
Qed.

Lemma book_missing_field (s : db) (body : Body.t) :
  falsy_field body \/ absent_field body ->
  App.book_appointment s body = (s, Json 400 msg_required)
  /\ Variant.book_appointment s body = (s, Json 400 msg_required).
Proof.
  intros H. unfold App.book_appointment, Variant.book_appointment.
  rewrite (falsy_field_test body H). split; reflexivity.
Qed.

(** C10. A booking in which patient_id or doctor_id is 0, or a field is the
    empty string, answers 400 'All fields are required' and leaves the store
    unchanged, in both files, and that is the very outcome of a request that
    lacks a field. *)
Theorem book_falsy_as_absent (s : db) (body : Body.t) :
  falsy_field body ->
  App.book_appointment s body = (s, Json 400 "All fields are required")
  /\ Variant.book_appointment s body = (s, Json 400 "All fields are required")
  /\ forall body', absent_field body' ->
       App.book_appointment s body' = App.book_appointment s body
       /\ Variant.book_appointment s body' = Variant.book_appointment s body.
Proof.
  intros H.
  destruct (book_missing_field s body (or_introl H)) as [HA HV].
  split; [exact HA|]. split; [exact HV|].
  intros body' Habs.
  destruct (book_missing_field s body' (or_intror Habs)) as [HA' HV'].
  split; congruence.
Qed.

Lemma book_falsy_as_absent_witness :
  App.book_appointment sample_db zero_patient_body = (sample_db, Json 400 "All fields are required")
  /\ App.book_appointment sample_db no_patient_body
     = App.book_appointment sample_db zero_patient_body.
Proof.
  assert (H : falsy_field zero_patient_body) by (left; reflexivity).
  destruct (book_falsy_as_absent sample_db zero_patient_body H) as (HA & _ & Habs).
  split; [exact HA|].
  apply (Habs no_patient_body). left; reflexivity.
Defined.

(** C8. On the store that seeding the empty store leaves, booking patient 1
    with doctor 1 on 2025-04-11 at 09:00 answers 400 'Doctor is already
    booked at this time': the first seeded row holds that slot. Both files. *)
Theorem seeded_slot_is_booked :
  In (mkAppointment 1 (JS.Num 1) (JS.Num 1) (JS.Str "2025-04-11") (JS.Str "09:00")
        (JS.Str "Scheduled"))
     (rows (App.insertDefaultAppointments empty_db))
  /\ App.book_appointment (App.insertDefaultAppointments empty_db) first_seed_body
     = (App.insertDefaultAppointments empty_db,
        Json 400 "Doctor is already booked at this time")
  /\ Variant.book_appointment (Variant.insertDefaultAppointments empty_db) first_seed_body
     = (Variant.insertDefaultAppointments empty_db,
        Json 400 "Doctor is already booked at this time").
Proof.
  assert (Hin : In (mkAppointment 1 (JS.Num 1) (JS.Num 1) (JS.Str "2025-04-11")
                      (JS.Str "09:00") (JS.Str "Scheduled"))
                   (rows (App.insertDefaultAppointments empty_db))).
  { vm_compute. left. reflexivity. }
  split; [exact Hin|]. split.
  - apply book_taken.
    + repeat split; vm_compute; reflexivity.
    + eexists. split; [exact Hin | reflexivity].
  - vm_compute. reflexivity.
Qed.

(** ** Seeding *)

Lemma fold_seed_insert (l : list Body.t) (s : db) :
  fold_left seed_insert l s
  = mkDb (rows s ++ seeded_rows (auto_increment s) l)
         (auto_increment s + Z.of_nat (List.length l)).
Proof.
  revert s. induction l as [|a l IH]; intros s.
  - simpl. rewrite app_nil_r, Z.add_0_r. apply eq_sym, db_eta.
  - cbn [fold_left]. rewrite IH.
    unfold seed_insert, insertQuery, scheduled.
    cbn [rows auto_increment seeded_rows List.length].
    f_equal; [rewrite <- app_assoc; reflexivity | rewrite Nat2Z.inj_succ; lia].
Qed.

Lemma same_booking_iff (a : Body.t) (r : appointment) :
  fields_present a ->
  (same_booking (Body.patient_id a) (Body.doctor_id a) (Body.appointment_date a)
     (Body.appointment_time a) r = true
   <-> booking r = requested_booking a).
Proof.
  intros (Hp & Hd & Hdate & Htime). unfold same_booking, booking, requested_booking.
  rewrite andb_true_iff, (truthy_sql_eq _ _ Hp),
    (slot_taken_by_iff _ _ _ r Hd Hdate Htime). unfold slot.
  split.
  - intros [-> H]. injection H as -> -> ->. reflexivity.
  - intros H. injection H as -> -> -> ->. auto.
Qed.

Lemma seed_missing_iff (s : db) (a : Body.t) :
  fields_present a ->
  (seed_missing s a = true <-> ~ booking_exists s (requested_booking a)).
Proof.
  intros Ha. unfold seed_missing, checkQuery.
  rewrite Nat.eqb_eq, length_zero_iff_nil, filter_nil_iff. split.
  - intros H (r & Hr & Hb). apply (same_booking_iff a r Ha) in Hb.
    rewrite (H r Hr) in Hb. discriminate.
  - intros H r Hr. destruct (same_booking _ _ _ _ r) eqn:E; [|reflexivity].
    exfalso. apply H. exists r. split; [exact Hr|]. apply (same_booking_iff a r Ha), E.
Qed.

Lemma seeded_rows_booking (a : Body.t) (l : list Body.t) (n : Z) :
  In a l -> exists r, In r (seeded_rows n l) /\ booking r = requested_booking a.
Proof.
  revert n. induction l as [|b l IH]; intros n []; simpl.
  - subst b. eexists. split; [left; reflexivity | reflexivity].
  - destruct (IH (n + 1) H) as (r & Hr & Hb). exists r. auto.
Qed.

Lemma seeded_rows_status (l : list Body.t) (n : Z) (r : appointment) :
  In r (seeded_rows n l) -> status r = JS.Str "Scheduled".
Proof.
  revert n. induction l as [|b l IH]; intros n; simpl; [intros []|].
  intros [<- | H]; [reflexivity | exact (IH _ H)].
Qed.

Lemma seed_present (s : db) (a : Body.t) :
  fields_present a -> seed_missing s a = false ->
  booking_exists s (requested_booking a).
Proof.
  intros Ha M. unfold seed_missing, checkQuery in M. apply Nat.eqb_neq in M.
  destruct (filter _ (rows s)) as [|r t] eqn:F; [contradiction M; reflexivity|].
  assert (Hr : In r (filter (same_booking (Body.patient_id a) (Body.doctor_id a)
                 (Body.appointment_date a) (Body.appointment_time a)) (rows s))).
  { rewrite F. left. reflexivity. }
  apply filter_In in Hr. destruct Hr as [Hr Hs].
  exists r. split; [exact Hr | apply (same_booking_iff a r Ha), Hs].
Qed.

(** After the routine every tuple has its row, so a second run finds nothing
    to insert. *)
Lemma seed_with_covers (l : list Body.t) (s : db) (a : Body.t) :
  fields_present a -> In a l ->
  booking_exists (seed_with l s) (requested_booking a).
Proof.
  intros Hp Ha. unfold seed_with. rewrite fold_seed_insert.
  unfold booking_exists. cbn [rows].
  destruct (seed_missing s a) eqn:M.
  - assert (Hf : In a (filter (seed_missing s) l)) by (apply filter_In; auto).
    destruct (seeded_rows_booking a _ (auto_increment s) Hf) as (r & Hr & Hb).
    exists r. rewrite in_app_iff. auto.
  - destruct (seed_present s a Hp M) as (r & Hr & Hb).
    exists r. rewrite in_app_iff. auto.
Qed.


Lemma app_appointments_present : Forall fields_present App.appointments.
Proof. repeat constructor. Qed.

Lemma variant_appointments_present : Forall fields_present Variant.appointments.
Proof. repeat constructor. Qed.


(** ** Updating *)


Lemma sql_eq_refl (a : JS.value) : is_null a = false -> sql_eq a a = true.
Proof.
  destruct a; simpl; intros H; try discriminate;
    first [ apply Bool.eqb_reflx | apply Z.eqb_refl | apply String.eqb_refl ].
Qed.

Lemma truthy_not_null (a : JS.value) : JS.truthy a = true -> is_null a = false.
Proof. destruct a; simpl; intros H; try discriminate; reflexivity. Qed.














(** ** The time-slot validator *)

Lemma span_keeps (p : ascii -> bool) (c : ascii) (l : list ascii) :
  p c = false -> In c l -> In c (snd (JS.span p l)).
Proof.
  intros Hc. induction l as [|a l IH]; simpl; [tauto|].
  intros [-> | Hin].
  - rewrite Hc. left. reflexivity.
  - destruct (p a) eqn:Ea.
    + destruct (JS.span p l) as [x y]. simpl in *. auto.
    + right. exact Hin.
Qed.

Lemma forallb_colon (p : ascii -> bool) (l : list ascii) :
  p ":"%char = false -> In ":"%char l -> forallb p l = false.
Proof.
  intros Hp Hin. destruct (forallb p l) eqn:E; [|reflexivity].
  rewrite forallb_forall in E. rewrite (E ":"%char Hin) in Hp. discriminate.
Qed.

Lemma exponent_colon (l : list ascii) : In ":"%char l -> JS.exponent l = None.
Proof.
  destruct l as [|c r]; simpl; [tauto|].
  intros Hin.
  destruct ((c =? "e")%char || (c =? "E")%char) eqn:Ec; [|reflexivity].
  assert (Hr : In ":"%char r).
  { destruct Hin as [-> | H]; [vm_compute in Ec; discriminate Ec | exact H]. }
  assert (Hds : forall ds, In ":"%char ds ->
            (if JS.nonempty ds && forallb JS.is_digit ds
             then Some (1 * JS.numeral 10 ds) else None) = None
            /\ (if JS.nonempty ds && forallb JS.is_digit ds
                then Some (-1 * JS.numeral 10 ds) else None) = None).
  { intros ds Hd. rewrite (forallb_colon JS.is_digit ds eq_refl Hd), andb_false_r. auto. }
  destruct r as [|s r']; [destruct Hr|].
  destruct (s =? "+")%char eqn:Eplus.
  - apply Hds. destruct Hr as [-> | H]; [vm_compute in Eplus; discriminate Eplus | exact H].
  - destruct (s =? "-")%char eqn:Eminus.
    + apply Hds. destruct Hr as [-> | H]; [vm_compute in Eminus; discriminate Eminus | exact H].
    + apply Hds. exact Hr.
Qed.

Lemma unsigned_decimal_colon (l : list ascii) :
  In ":"%char l -> JS.unsigned_decimal l = None.
Proof.
  intros Hin. unfold JS.unsigned_decimal.
  pose proof (span_keeps JS.is_digit ":"%char l eq_refl Hin) as H1.
  destruct (JS.span JS.is_digit l) as [ip r1]. simpl in H1.
  destruct r1 as [|c r2]; [destruct H1|].
  destruct (c =? ".")%char eqn:Edot.
  - assert (H2 : In ":"%char r2).
    { destruct H1 as [-> | H]; [vm_compute in Edot; discriminate Edot | exact H]. }
    pose proof (span_keeps JS.is_digit ":"%char r2 eq_refl H2) as H3.
    destruct (JS.span JS.is_digit r2) as [fp r3]. simpl in H3.
    rewrite (exponent_colon r3 H3). destruct (JS.nonempty ip || JS.nonempty fp); reflexivity.
  - rewrite (exponent_colon (c :: r2) H1). destruct (JS.nonempty ip); reflexivity.
Qed.

Lemma chars_eqb_eq (a b : list ascii) : JS.chars_eqb a b = true -> a = b.
Proof.
  unfold JS.chars_eqb. intros H. apply String.eqb_eq in H.
  rewrite <- (list_ascii_of_string_of_list_ascii a),
    <- (list_ascii_of_string_of_list_ascii b), H. reflexivity.
Qed.

Lemma unsigned_literal_colon (negative : bool) (l : list ascii) :
  In ":"%char l -> JS.unsigned_literal negative l = JS.NaN.
Proof.
  intros Hin. unfold JS.unsigned_literal.
  destruct (JS.chars_eqb l JS.infinity_chars) eqn:E.
  - apply chars_eqb_eq in E. subst l. exfalso.
    simpl in Hin. intuition discriminate.
  - rewrite (unsigned_decimal_colon l Hin). reflexivity.
Qed.

Lemma decimal_literal_colon (l : list ascii) :
  In ":"%char l -> JS.decimal_literal l = JS.NaN.
Proof.
  destruct l as [|c r]; simpl; [tauto|]. intros Hin.
  destruct (c =? "+")%char eqn:Eplus.
  - apply unsigned_literal_colon.
    destruct Hin as [-> | H]; [vm_compute in Eplus; discriminate Eplus | exact H].
  - destruct (c =? "-")%char eqn:Eminus.
    + apply unsigned_literal_colon.
      destruct Hin as [-> | H]; [vm_compute in Eminus; discriminate Eminus | exact H].
    + apply unsigned_literal_colon. exact Hin.
Qed.

Lemma non_decimal_literal_colon (l : list ascii) :
  In ":"%char l -> JS.non_decimal_literal l = None.
Proof.
  destruct l as [|z [|k ds]]; simpl; [tauto | intros _; reflexivity | ].
  intros [-> | [-> | Hin]]; try reflexivity.
  - destruct ((z =? "0")%char && JS.nonempty ds); reflexivity.
  - rewrite (forallb_colon JS.is_hex_digit ds eq_refl Hin),
      (forallb_colon JS.is_octal_digit ds eq_refl Hin),
      (forallb_colon JS.is_binary_digit ds eq_refl Hin), !andb_false_r.
    destruct ((z =? "0")%char && JS.nonempty ds); reflexivity.
Qed.

Lemma drop_space_keeps (c : ascii) (l : list ascii) :
  JS.is_space c = false -> In c l -> In c (JS.drop_space l).
Proof.
  intros Hc. induction l as [|a l IH]; simpl; [tauto|].
  intros [-> | Hin].
  - rewrite Hc. left. reflexivity.
  - destruct (JS.is_space a); [auto | right; exact Hin].
Qed.

Lemma trim_keeps (c : ascii) (l : list ascii) :
  JS.is_space c = false -> In c l -> In c (JS.trim l).
Proof.
  intros Hc Hin. unfold JS.trim.
  apply (proj1 (in_rev _ _)), drop_space_keeps; [exact Hc|].
  apply (proj1 (in_rev _ _)), drop_space_keeps; assumption.
Qed.

(** A string that holds a colon is no numeric literal. *)
Lemma Number_colon (s : string) : In ":"%char (chars s) -> JS.Number s = JS.NaN.
Proof.
  intros Hin. unfold JS.Number, JS.number_of_chars.
  pose proof (trim_keeps ":"%char _ eq_refl Hin) as Ht. fold (chars s) in *.
  destruct (JS.trim (chars s)) as [|c t] eqn:E; [destruct Ht|].
  rewrite (non_decimal_literal_colon (c :: t) Ht).
  apply decimal_literal_colon. exact Ht.
Qed.

Lemma split_chars_whole (sep : ascii) (l : list ascii) :
  ~ In sep l -> JS.split_chars sep l = [l].
Proof.
  induction l as [|c l IH]; simpl; intros H; [reflexivity|].
  destruct (c =? sep)%char eqn:E.
  - apply Ascii.eqb_eq in E. exfalso. apply H. left. exact E.
  - rewrite IH; [reflexivity|]. intros Hin. apply H. right. exact Hin.
Qed.

Lemma split_chars_first (sep : ascii) (h rest : list ascii) :
  ~ In sep h ->
  JS.split_chars sep (h ++ sep :: rest) = h :: JS.split_chars sep rest.
Proof.
  induction h as [|c h IH]; simpl; intros H.
  - rewrite Ascii.eqb_refl. reflexivity.
  - destruct (c =? sep)%char eqn:E.
    + apply Ascii.eqb_eq in E. exfalso. apply H. left. exact E.
    + rewrite IH; [reflexivity|]. intros Hin. apply H. right. exact Hin.
Qed.

Lemma chars_append (a b : string) : chars (a ++ b)%string = chars a ++ chars b.
Proof. induction a as [|c a IH]; simpl; [reflexivity|]. f_equal. exact IH. Qed.

Lemma string_of_chars (s : string) : string_of_list_ascii (chars s) = s.
Proof. apply string_of_list_ascii_of_string. Qed.

(** The pieces of a time string whose first colon follows [hours]. *)
Lemma split_time (hours rest : string) :
  ~ In ":"%char (chars hours) -> ~ In ":"%char (chars rest) ->
  JS.split ":"%char (hours ++ ":" ++ rest)%string = [hours; rest].
Proof.
  intros Hh Hr. unfold JS.split. fold (chars (hours ++ ":" ++ rest)%string).
  rewrite chars_append. change (chars (":" ++ rest)%string) with (":"%char :: chars rest).
  rewrite (split_chars_first ":"%char _ _ Hh), (split_chars_whole ":"%char _ Hr).
  simpl. rewrite !string_of_chars. reflexivity.
Qed.

Lemma strict_equals_not_NaN (s : string) (k : Z) :
  JS.strict_equals (JS.Number s) k = true -> ~ In ":"%char (chars s).
Proof.
  intros H Hin. rewrite (Number_colon s Hin) in H. discriminate.
Qed.

Lemma valid_by_minutes (hours rest : string) :
  ~ In ":"%char (chars hours) ->
  JS.strict_equals (JS.Number rest) 0 || JS.strict_equals (JS.Number rest) 30 = true ->
  App.isValidTimeSlot (JS.Str (hours ++ ":" ++ rest)%string) = JS.Return true.
Proof.
  intros Hh Hm.
  assert (Hr : ~ In ":"%char (chars rest)).
  { apply orb_true_iff in Hm. destruct Hm as [H | H];
      exact (strict_equals_not_NaN rest _ H). }
  unfold App.isValidTimeSlot.
  rewrite (split_time hours rest Hh Hr). cbn [map]. rewrite Hm. reflexivity.
Qed.

Lemma invalid_by_minutes (s m : string) :
  minutes_part s = Some m -> JS.Number m = JS.NaN ->
  App.isValidTimeSlot (JS.Str s) = JS.Return false.
Proof.
  unfold minutes_part, App.isValidTimeSlot.
  destruct (JS.split ":"%char s) as [|h [|m' t]]; try discriminate.
  intros E Hm. injection E as ->. cbn [map]. rewrite Hm. reflexivity.
Qed.

(** C9. The validator looks at the minutes only. A time string whose text
    after the first colon reads as the number 0 or 30 is valid whatever
    stands before the colon; '99:30' and '-5:00' are valid, and a booking or
    an update that carries them is accepted by the validation of either
    handler; a string whose minutes part reads as NaN is rejected. *)
Theorem isValidTimeSlot_minutes_only :
  (forall hours rest : string,
      ~ In ":"%char (chars hours) ->
      JS.strict_equals (JS.Number rest) 0 || JS.strict_equals (JS.Number rest) 30 = true ->
      App.isValidTimeSlot (JS.Str (hours ++ ":" ++ rest)%string) = JS.Return true)
  /\ (forall time : string, time = "99:30" \/ time = "-5:00" ->
        App.isValidTimeSlot (JS.Str time) = JS.Return true
        /\ (forall (s : db) (body : Body.t),
               fields_present body -> Body.appointment_time body = JS.Str time ->
               snd (App.book_appointment s body) = Json 201 msg_success
               \/ snd (App.book_appointment s body) = Json 400 msg_booked)
        /\ (forall (s : db) (aid : Z) (body : Body.t),
               JS.truthy (Body.appointment_date body) = true ->
               Body.appointment_time body = JS.Str time ->
               snd (App.update_appointment s aid body) <> Json 400 msg_interval
               /\ snd (App.update_appointment s aid body) <> Uncaught))
  /\ App.book_appointment empty_db late_body
     = (with_row empty_db (booked_row empty_db late_body), Json 201 msg_success)
  /\ snd (App.update_appointment sample_db 1 (move_body "2025-05-02" "-5:00"))
     = Json 200 msg_updated
  /\ (forall s m : string,
        minutes_part s = Some m -> JS.Number m = JS.NaN ->
        App.isValidTimeSlot (JS.Str s) = JS.Return false).
Proof.
  split; [exact valid_by_minutes|].
  split.
  - intros time Htime.
    assert (Hv : App.isValidTimeSlot (JS.Str time) = JS.Return true).
    { destruct Htime as [-> | ->]; vm_compute; reflexivity. }
    split; [exact Hv|]. split.
    + intros s body Hp Et. unfold App.book_appointment.
      rewrite (fields_present_test body Hp), Et, Hv.
      unfold checkDoctorAvailabilityQuery, insertQuery.
      destruct (0 <? List.length _)%nat; simpl; auto.
    + intros s aid body Hd Et. unfold App.update_appointment.
      rewrite Hd, Et, Hv. cbn [JS.truthy negb orb].
      assert (Hne : negb (negb ((time =? "")%string)) = false).
      { destruct Htime as [-> | ->]; reflexivity. }
      rewrite Hne.
      destruct (checkAvailabilityQuery s aid _ _) as [|results];
        [simpl; split; discriminate|].
      destruct (0 <? List.length results)%nat; [simpl; split; discriminate|].
      unfold updateQuery.
      destruct (List.length _ =? 0)%nat; simpl; split; discriminate.
  - split; [vm_compute; reflexivity|].
    split; [vm_compute; reflexivity|].
    exact invalid_by_minutes.
Qed.

(** ** Double booking *)

Lemma slot_eqb_eq (a b : JS.value * JS.value * JS.value) :
  a = b -> slot_eqb a b = true.
Proof.
  intros <-. destruct a as [[d date] time]. simpl.
  rewrite !(proj2 (js_eqb_eq _ _) eq_refl). reflexivity.
Qed.

Lemma distinct_NoDup {A : Type} (eqb : A -> A -> bool) (l : list A) :
  (forall a, eqb a a = true) -> distinct eqb l = true -> NoDup l.
Proof.
  intros Hrefl. induction l as [|x l IH]; [constructor|].
  cbn [distinct]. rewrite andb_true_iff, negb_true_iff. intros [Hx Hl].
  constructor; [|exact (IH Hl)].
  intros Hin.
  assert (Hex : existsb (eqb x) l = true).
  { apply existsb_exists. exists x. auto. }
  congruence.
Qed.

Lemma NoDup_map_injective {A B : Type} (f : A -> B) (l : list A) (a b : A) :
  NoDup (map f l) -> In a l -> In b l -> f a = f b -> a = b.
Proof.
  induction l as [|x l IH]; [intros _ []|].
  cbn [map]. intros H Ha Hb E. inversion H as [|? ? Hnin Hnd]; subst.
  destruct Ha as [<- | Ha], Hb as [<- | Hb].
  - reflexivity.
  - destruct Hnin. rewrite E. apply in_map, Hb.
  - destruct Hnin. rewrite <- E. apply in_map, Ha.
  - exact (IH Hnd Ha Hb E).
Qed.

Lemma distinct_slots_sound (l : list appointment) :
  distinct_slots l = true ->
  forall r1 r2, In r1 l -> In r2 l -> slot r1 = slot r2 -> r1 = r2.
Proof.
  intros H r1 r2. apply NoDup_map_injective.
  apply (distinct_NoDup slot_eqb); [|exact H].
  intros a. apply slot_eqb_eq. reflexivity.
Qed.

Lemma distinct_slots_not_double_booked (s : db) :
  distinct_slots (rows s) = true -> ~ double_booked s.
Proof.
  intros H (r1 & r2 & H1 & H2 & Hne & Hs).
  apply Hne. f_equal. exact (distinct_slots_sound _ H r1 r2 H1 H2 Hs).
Qed.

(** C1. The seed routine looks for its tuple by (patient, doctor, date,
    time) and not by the slot. Seed the empty store, delete appointment 1,
    book its slot (doctor 1, 2025-04-11, 09:00) for patient 99, and start the
    process again: before the restart no slot is shared; the seed then adds
    appointment 47 for patient 1 on the slot that appointment 46 holds. *)
Theorem seed_double_books :
  reachable before_restart_db
  /\ ~ double_booked before_restart_db
  /\ In rebooked_row (rows before_restart_db)
  /\ rows (App.insertDefaultAppointments before_restart_db)
     = rows before_restart_db ++ [reseeded_row]
  /\ appointment_id rebooked_row <> appointment_id reseeded_row
  /\ slot rebooked_row = slot reseeded_row
  /\ reachable restarted_db
  /\ double_booked restarted_db.
Proof.
  assert (R : reachable before_restart_db).
  { unfold before_restart_db. apply reach_book, reach_delete, reach_start, reach_empty. }
  assert (E : rows (App.insertDefaultAppointments before_restart_db)
              = rows before_restart_db ++ [reseeded_row])
    by (vm_compute; reflexivity).
  assert (I : In rebooked_row (rows before_restart_db)) by (vm_compute; tauto).
  split; [exact R|].
  split; [apply distinct_slots_not_double_booked; vm_compute; reflexivity|].
  split; [exact I|].
  split; [exact E|].
  split; [discriminate|].
  split; [reflexivity|].
  split; [apply reach_start, R|].
  exists rebooked_row, reseeded_row. unfold restarted_db. rewrite E.
  split; [apply in_or_app; left; exact I|].
  split; [apply in_or_app; right; left; reflexivity|].
  split; [discriminate | reflexivity].
Qed.

(** *** The handlers keep slots apart *)

Lemma length_zero_filter {A : Type} (f : A -> bool) (l : list A) :
  (0 <? List.length (filter f l))%nat = false -> filter f l = [].
Proof. destruct (filter f l); [reflexivity | discriminate]. Qed.

Lemma book_cases (s : db) (body : Body.t) :
  fst (App.book_appointment s body) = s
  \/ (fields_present body
      /\ filter (slot_taken_by (Body.doctor_id body) (Body.appointment_date body)
                   (Body.appointment_time body)) (rows s) = []
      /\ fst (App.book_appointment s body) = with_row s (booked_row s body)).
Proof.
  unfold App.book_appointment, checkDoctorAvailabilityQuery, insertQuery.
  destruct (JS.truthy (Body.patient_id body)) eqn:Hp; [|left; reflexivity].
  destruct (JS.truthy (Body.doctor_id body)) eqn:Hd; [|left; reflexivity].
  destruct (JS.truthy (Body.appointment_date body)) eqn:Hdate; [|left; reflexivity].
  destruct (JS.truthy (Body.appointment_time body)) eqn:Htime; [|left; reflexivity].
  cbn [negb orb].
  destruct (App.isValidTimeSlot (Body.appointment_time body)) as [[|]|];
    try (left; reflexivity).
  destruct (0 <? List.length _)%nat eqn:Hlen; [left; reflexivity|].
  right. split; [repeat split; assumption|].
  split; [apply length_zero_filter, Hlen | reflexivity].
Qed.


Lemma update_cases (s : db) (aid : Z) (body : Body.t) :
  fst (App.update_appointment s aid body) = s
  \/ (JS.truthy (Body.appointment_date body) = true
      /\ JS.truthy (Body.appointment_time body) = true
      /\ exists d,
           doctor_of s aid = QOk d
           /\ filter (fun r => slot_taken_by d (Body.appointment_date body)
                                 (Body.appointment_time body) r
                               && negb (has_id aid r)) (rows s) = []
           /\ fst (App.update_appointment s aid body)
              = mkDb (map (fun r => if has_id aid r then updated_row body r else r) (rows s))
                     (auto_increment s)).
Proof.
  unfold App.update_appointment, checkAvailabilityQuery, updateQuery.
  destruct (JS.truthy (Body.appointment_date body)) eqn:Hdate; [|left; reflexivity].
  destruct (JS.truthy (Body.appointment_time body)) eqn:Htime; [|left; reflexivity].
  cbn [negb orb].
  destruct (App.isValidTimeSlot (Body.appointment_time body)) as [[|]|];
    try (left; reflexivity).
  destruct (doctor_of s aid) as [|d] eqn:Hdoc; [left; reflexivity|].
  destruct (0 <? List.length _)%nat eqn:Hlen; [left; reflexivity|].
  right. split; [reflexivity|]. split; [reflexivity|].
  exists d. split; [reflexivity|]. split; [apply length_zero_filter, Hlen|].
  destruct (List.length _ =? 0)%nat; reflexivity.
Qed.













(** *** The primary key *)

Lemma with_row_keyed (s : db) (p d date time st : JS.value) :
  keyed s -> keyed (with_row s (mkAppointment (auto_increment s) p d date time st)).
Proof.
  intros [Hpk Hfresh]. unfold keyed, pk_unique, counter_fresh, with_row. cbn [rows auto_increment].
  split.
  - rewrite map_app. cbn [map appointment_id].
    apply NoDup_app; [exact Hpk | repeat constructor; intros [] | ].
    intros x Hx [E | []]. apply in_map_iff in Hx. destruct Hx as (r & Er & Hr).
    specialize (Hfresh r Hr). lia.
  - intros r Hr. apply in_app_iff in Hr. destruct Hr as [Hr | [<- | []]].
    + specialize (Hfresh r Hr). lia.
    + cbn. lia.
Qed.

Lemma fold_seed_keyed (l : list Body.t) (s : db) :
  keyed s -> keyed (fold_left seed_insert l s).
Proof.
  revert s. induction l as [|a l IH]; intros s H; [exact H|].
  cbn [fold_left]. apply IH. apply with_row_keyed, H.
Qed.

Lemma map_id_filter_NoDup (f : appointment -> bool) (l : list appointment) :
  NoDup (map appointment_id l) -> NoDup (map appointment_id (filter f l)).
Proof.
  induction l as [|r l IH]; simpl; intros H; [constructor|].
  inversion H as [|? ? Hnin Hnd]; subst.
  destruct (f r); [|exact (IH Hnd)].
  simpl. constructor; [|exact (IH Hnd)].
  intros Hin. apply Hnin. apply in_map_iff in Hin. destruct Hin as (x & Ex & Hx).
  apply filter_In in Hx. apply in_map_iff. exists x. tauto.
Qed.

(** Every reachable store keeps its key. *)
Theorem reachable_keyed (s : db) : reachable s -> keyed s.
Proof.
  induction 1 as [|s _ IH|s body _ IH|s aid body _ IH|s aid _ IH].
  - split; [constructor | intros r []].
  - apply fold_seed_keyed, IH.
  - destruct (book_cases s body) as [-> | (_ & _ & ->)]; [exact IH|].
    apply with_row_keyed, IH.
  - destruct (update_cases s aid body) as [-> | (_ & _ & d & _ & _ & ->)]; [exact IH|].
    destruct IH as [Hpk Hfresh]. unfold keyed, pk_unique, counter_fresh. cbn [rows auto_increment].
    assert (Hid : forall r, appointment_id (if has_id aid r then updated_row body r else r)
                            = appointment_id r).
    { intros r. destruct (has_id aid r); reflexivity. }
    split.
    + rewrite map_map. rewrite (map_ext _ appointment_id Hid). exact Hpk.
    + intros r' Hr'. apply in_map_iff in Hr'. destruct Hr' as (r & <- & Hr).
      rewrite Hid. exact (Hfresh r Hr).
  - destruct IH as [Hpk Hfresh].
    assert (E : fst (App.delete_appointment s aid)
                = mkDb (filter (fun r => negb (has_id aid r)) (rows s)) (auto_increment s)).
    { unfold App.delete_appointment, deleteQuery.
      destruct (List.length _ =? 0)%nat; reflexivity. }
    rewrite E. split.
    + apply map_id_filter_NoDup, Hpk.
    + intros r Hr. cbn [rows] in Hr. apply filter_In in Hr. apply Hfresh, Hr.
Qed.

Lemma reachable_keyed_witness : keyed restarted_db.
Proof.
  apply reachable_keyed. unfold restarted_db, before_restart_db.
  apply reach_start, reach_book, reach_delete, reach_start, reach_empty.
Defined.

(** *** The order of the seed's queries *)

Lemma seed_missing_after_insert (s : db) (a b : Body.t) :
  fields_present a -> fields_present b ->
  requested_booking a <> requested_booking b ->
  seed_missing (seed_insert s a) b = seed_missing s b.
Proof.
  intros Ha Hb Hne.
  destruct (seed_missing s b) eqn:M.
  - apply (seed_missing_iff _ b Hb). apply (seed_missing_iff _ b Hb) in M.
    intros (r & Hr & Hq). unfold seed_insert, insertQuery in Hr. cbn [rows] in Hr.
    apply in_app_iff in Hr. destruct Hr as [Hr | [<- | []]].
    + apply M. exists r. auto.
    + apply Hne. exact Hq.
  - destruct (seed_missing (seed_insert s a) b) eqn:M'; [|reflexivity].
    apply (seed_missing_iff _ b Hb) in M'. exfalso. apply M'.
    destruct (seed_present s b Hb M) as (r & Hr & Hq).
    exists r. split; [|exact Hq].
    unfold seed_insert, insertQuery. cbn [rows]. apply in_app_iff. auto.
Qed.

(** The tuples of a seed list are pairwise different, so it makes no
    difference whether the checks all run first or each runs in its turn. *)
Lemma seed_in_turn_eq (l : list Body.t) (s : db) :
  Forall fields_present l -> NoDup (map requested_booking l) ->
  seed_in_turn l s = seed_with l s.
Proof.
  unfold seed_in_turn, seed_with. revert s.
  induction l as [|a l IH]; intros s Hp Hnd; [reflexivity|].
  inversion Hp as [|? ? Ha Hl]; subst. inversion Hnd as [|? ? Hnin Hnd']; subst.
  cbn [fold_left filter].
  destruct (seed_missing s a) eqn:M; cbn [fold_left].
  - rewrite (IH _ Hl Hnd'). f_equal. apply filter_ext_in. intros b Hb.
    rewrite Forall_forall in Hl.
    apply seed_missing_after_insert; [exact Ha | exact (Hl b Hb) |].
    intros E. apply Hnin. rewrite E. apply in_map, Hb.
  - apply (IH _ Hl Hnd').
Qed.

Lemma booking_eqb_refl (q : JS.value * JS.value * JS.value * JS.value) :
  booking_eqb q q = true.
Proof.
  destruct q as [[[p d] date] time]. unfold booking_eqb.
  rewrite (proj2 (js_eqb_eq p p) eq_refl), (slot_eqb_eq _ _ eq_refl). reflexivity.
Qed.

(** For the tuples of either file the two orders give the same store. *)
Theorem insertDefaultAppointments_in_turn (s : db) :
  seed_in_turn App.appointments s = App.insertDefaultAppointments s
  /\ seed_in_turn Variant.appointments s = Variant.insertDefaultAppointments s.
Proof.
  split.
  - apply seed_in_turn_eq; [exact app_appointments_present|].
    apply (distinct_NoDup booking_eqb); [exact booking_eqb_refl|].
    vm_compute. reflexivity.
  - apply seed_in_turn_eq; [exact variant_appointments_present|].
    apply (distinct_NoDup booking_eqb); [exact booking_eqb_refl|].
    vm_compute. reflexivity.
Qed.

(** *** Minutes written in digits *)

Lemma strict_equals_integer (n k : Z) :
  k = 0 \/ k = 30 ->
  JS.strict_equals (JS.Finite (JS.scale n 0)) k = (n =? k).
Proof.
  intros Hk. unfold JS.strict_equals, JS.scale.
  assert (Hgap : (JS.half_gap_below k == 1 # 2 ^ (if k =? 0 then 1075 else 49))%Q
                 /\ (JS.half_gap_above k == 1 # 2 ^ (if k =? 0 then 1075 else 49))%Q).
  { destruct Hk as [-> | ->]; split; vm_compute; reflexivity. }
  destruct Hgap as [Hb Ha].
  destruct (n =? k) eqn:E.
  - apply Z.eqb_eq in E. subst n. apply andb_true_iff. split; apply Qle_bool_iff.
    + rewrite Hb. destruct Hk as [-> | ->]; unfold Qle; simpl; lia.
    + rewrite Ha. destruct Hk as [-> | ->]; unfold Qle; simpl; lia.
  - apply Z.eqb_neq in E. apply andb_false_iff.
    destruct (Z.lt_ge_cases n k) as [Hlt | Hge].
    + left. apply not_true_iff_false. intros H. apply Qle_bool_iff in H.
      rewrite Hb in H. destruct Hk as [-> | ->]; unfold Qle in H; simpl in H; lia.
    + right. apply not_true_iff_false. intros H. apply Qle_bool_iff in H.
      rewrite Ha in H. destruct Hk as [-> | ->]; unfold Qle in H; simpl in H; lia.
Qed.

Lemma digit_differs (c d : ascii) :
  JS.is_digit c = true -> JS.is_digit d = false -> (c =? d)%char = false.
Proof.
  intros Hc Hd. destruct (c =? d)%char eqn:E; [|reflexivity].
  apply Ascii.eqb_eq in E. congruence.
Qed.

Lemma digit_not_space (c : ascii) : JS.is_digit c = true -> JS.is_space c = false.
Proof.
  unfold JS.is_digit, JS.is_space. intros H. apply andb_true_iff in H.
  destruct H as [H1 H2]. apply N.leb_le in H1, H2.
  repeat (apply orb_false_iff; split); apply N.eqb_neq; lia.
Qed.

Lemma drop_space_digits (l : list ascii) :
  forallb JS.is_digit l = true -> JS.drop_space l = l.
Proof.
  destruct l as [|c l]; simpl; [reflexivity|].
  intros H. apply andb_true_iff in H. rewrite (digit_not_space c (proj1 H)). reflexivity.
Qed.

Lemma trim_digits (l : list ascii) : forallb JS.is_digit l = true -> JS.trim l = l.
Proof.
  intros H. unfold JS.trim. rewrite (drop_space_digits l H), drop_space_digits.
  - apply rev_involutive.
  - apply forallb_forall. intros c Hc. rewrite forallb_forall in H.
    apply H, in_rev, Hc.
Qed.

Lemma span_digits (l : list ascii) :
  forallb JS.is_digit l = true -> JS.span JS.is_digit l = (l, []).
Proof.
  induction l as [|c l IH]; simpl; [reflexivity|].
  intros H. apply andb_true_iff in H. destruct H as [-> H].
  rewrite (IH H). reflexivity.
Qed.

Lemma non_decimal_digits (l : list ascii) :
  forallb JS.is_digit l = true -> JS.non_decimal_literal l = None.
Proof.
  destruct l as [|z [|k ds]]; simpl; try reflexivity.
  intros H. apply andb_true_iff in H. destruct H as [_ H].
  apply andb_true_iff in H. destruct H as [Hk _].
  rewrite (digit_differs k "x" Hk eq_refl), (digit_differs k "X" Hk eq_refl),
    (digit_differs k "o" Hk eq_refl), (digit_differs k "O" Hk eq_refl),
    (digit_differs k "b" Hk eq_refl), (digit_differs k "B" Hk eq_refl). simpl.
  destruct ((z =? "0")%char && JS.nonempty ds); reflexivity.
Qed.

(** A non-empty run of decimal digits reads as the integer it writes. *)
Lemma Number_digits (s : string) :
  chars s <> [] -> forallb JS.is_digit (chars s) = true ->
  JS.Number s = JS.Finite (JS.scale (JS.numeral 10 (chars s)) 0).
Proof.
  unfold JS.Number, JS.number_of_chars. fold (chars s).
  intros Hne Hd. rewrite (trim_digits _ Hd).
  destruct (chars s) as [|c l] eqn:E; [contradiction Hne; reflexivity|].
  rewrite (non_decimal_digits _ Hd).
  assert (Hc : JS.is_digit c = true).
  { simpl in Hd. apply andb_true_iff in Hd. apply Hd. }
  unfold JS.decimal_literal.
  rewrite (digit_differs c "+" Hc eq_refl), (digit_differs c "-" Hc eq_refl).
  unfold JS.unsigned_literal.
  assert (Hinf : JS.chars_eqb (c :: l) JS.infinity_chars = false).
  { destruct (JS.chars_eqb (c :: l) JS.infinity_chars) eqn:Ei; [|reflexivity].
    apply chars_eqb_eq in Ei. injection Ei as -> _. discriminate Hc. }
  rewrite Hinf. unfold JS.unsigned_decimal. rewrite (span_digits _ Hd). reflexivity.
Qed.

Lemma digits_no_colon (l : list ascii) :
  forallb JS.is_digit l = true -> ~ In ":"%char l.
Proof.
  intros H Hin. rewrite forallb_forall in H. specialize (H _ Hin). discriminate H.
Qed.

Lemma validator_on_digits (hours minutes : string) :
  ~ In ":"%char (chars hours) ->
  chars minutes <> [] -> forallb JS.is_digit (chars minutes) = true ->
  App.isValidTimeSlot (JS.Str (hours ++ ":" ++ minutes)%string)
  = JS.Return ((JS.numeral 10 (chars minutes) =? 0)
               || (JS.numeral 10 (chars minutes) =? 30)).
Proof.
  intros Hh Hne Hd. unfold App.isValidTimeSlot.
  rewrite (split_time hours minutes Hh (digits_no_colon _ Hd)). cbn [map].
  rewrite (Number_digits minutes Hne Hd).
  rewrite (strict_equals_integer _ 0 (or_introl eq_refl)),
    (strict_equals_integer _ 30 (or_intror eq_refl)). reflexivity.
Qed.

(** A booking whose fields are present and whose time has its minutes
    written in digits is answered with the 30-minute-interval message exactly
    when the minutes denote neither 0 nor 30. *)
Theorem book_interval_iff (s : db) (body : Body.t) (hours minutes : string) :
  fields_present body ->
  Body.appointment_time body = JS.Str (hours ++ ":" ++ minutes)%string ->
  ~ In ":"%char (chars hours) ->
  chars minutes <> [] -> forallb JS.is_digit (chars minutes) = true ->
  (snd (App.book_appointment s body) = Json 400 msg_interval
   <-> JS.numeral 10 (chars minutes) <> 0 /\ JS.numeral 10 (chars minutes) <> 30).
Proof.
  intros Hp Et Hh Hne Hd.
  pose proof (validator_on_digits hours minutes Hh Hne Hd) as Hv. rewrite <- Et in Hv.
  unfold App.book_appointment. rewrite (fields_present_test body Hp), Hv.
  unfold checkDoctorAvailabilityQuery, insertQuery.
  destruct (JS.numeral 10 (chars minutes) =? 0) eqn:E0;
    [|destruct (JS.numeral 10 (chars minutes) =? 30) eqn:E30].
  - apply Z.eqb_eq in E0. cbn [orb].
    destruct (0 <? List.length _)%nat; cbn [snd];
      (split; [discriminate | intros [H _]; contradiction]).
  - apply Z.eqb_eq in E30. cbn [orb].
    destruct (0 <? List.length _)%nat; cbn [snd];
      (split; [discriminate | intros [_ H]; contradiction]).
  - apply Z.eqb_neq in E0, E30. cbn [orb snd]. tauto.
Qed.

Lemma book_interval_iff_witness :
  snd (App.book_appointment sample_db quarter_past_body) = Json 400 msg_interval
  <-> JS.numeral 10 (chars "15") <> 0 /\ JS.numeral 10 (chars "15") <> 30.
Proof.
  apply (book_interval_iff sample_db quarter_past_body "09" "15");
    [repeat split; reflexivity | reflexivity | simpl; intuition discriminate
    | discriminate | reflexivity].
Defined.

(** *** Bookings off the half hour *)

Lemma split_time_tail (hours minutes tail : string) :
  ~ In ":"%char (chars hours) -> ~ In ":"%char (chars minutes) ->
  exists pieces,
    JS.split ":" (hours ++ ":" ++ minutes ++ ":" ++ tail)%string
    = hours :: minutes :: pieces.
Proof.
  intros Hh Hm. unfold JS.split.
  fold (chars (hours ++ ":" ++ minutes ++ ":" ++ tail)%string).
  rewrite chars_append.
  change (chars (":" ++ minutes ++ ":" ++ tail)%string)
    with (":"%char :: chars (minutes ++ ":" ++ tail)%string).
  rewrite (split_chars_first _ _ _ Hh), chars_append.
  change (chars (":" ++ tail)%string) with (":"%char :: chars tail).
  rewrite (split_chars_first _ _ _ Hm). cbn [map]. rewrite !string_of_chars.
  eexists. reflexivity.
Qed.

(** The validator rejects a time text that is off the half hour. *)
Lemma validator_off_half_hour (t : string) :
  off_half_hour t -> App.isValidTimeSlot (JS.Str t) = JS.Return false.
Proof.
  intros [hours minutes Hh Hne Hd H0 H30 | hours minutes seconds Hh Hne Hd H0 H30].
  - rewrite (validator_on_digits hours minutes Hh Hne Hd).
    apply Z.eqb_neq in H0, H30. rewrite H0, H30. reflexivity.
  - assert (E : App.isValidTimeSlot (JS.Str (hours ++ ":" ++ minutes ++ ":" ++ seconds)%string)
                = App.isValidTimeSlot (JS.Str (hours ++ ":" ++ minutes)%string)).
    { unfold App.isValidTimeSlot.
      destruct (split_time_tail hours minutes seconds Hh (digits_no_colon _ Hd))
        as (pieces & ->).
      rewrite (split_time hours minutes Hh (digits_no_colon _ Hd)). reflexivity. }
    rewrite E, (validator_on_digits hours minutes Hh Hne Hd).
    apply Z.eqb_neq in H0, H30. rewrite H0, H30. reflexivity.
Qed.

(** C3 (amended). In [app.js], a booking whose four fields pass the
    required-field test and whose time is a string off the :00 and :30 minute
    marks (it reads H:M or H:M:S, with minutes in digits that denote neither
    0 nor 30) answers 400 with the 30-minute-interval message, and the store
    is unchanged. *)
Theorem book_rejects_off_boundary (s : db) (body : Body.t) (t : string) :
  fields_present body ->
  Body.appointment_time body = JS.Str t -> off_half_hour t ->
  App.book_appointment s body = (s, Json 400 msg_interval).
Proof.
  intros Hp Et Hoff. unfold App.book_appointment.
  rewrite (fields_present_test body Hp), Et, (validator_off_half_hour t Hoff).
  reflexivity.
Qed.

Lemma book_rejects_off_boundary_witness :
  App.book_appointment sample_db quarter_past_seconds_body
  = (sample_db, Json 400 msg_interval).
Proof.
  apply (book_rejects_off_boundary sample_db quarter_past_seconds_body "09:15:00").
  - repeat split; reflexivity.
  - reflexivity.
  - apply (off_minutes_seconds "09" "15" "00");
      [simpl; intuition discriminate | discriminate | reflexivity
      | discriminate | discriminate].
Defined.

(** C3, as stated for the book operation of either file: the variant has no
    time-slot check and books a quarter-past time; in [app.js] a time that is
    present but not a string makes the validator throw; and with a field that
    is present but falsy (a patient_id 0) the quarter-past request is answered
    with the required-fields message, not the interval one. *)
Lemma off_boundary_time_booked_or_thrown :
  fields_present quarter_past_body
  /\ App.isValidTimeSlot (Body.appointment_time quarter_past_body) = JS.Return false
  /\ Variant.book_appointment empty_db quarter_past_body
     = (with_row empty_db (booked_row empty_db quarter_past_body), Json 201 msg_success)
  /\ fields_present numeric_time_body
  /\ App.book_appointment empty_db numeric_time_body = (empty_db, Uncaught)
  /\ http_status (snd (App.book_appointment empty_db numeric_time_body)) = 500
  /\ ~ absent_field zero_patient_quarter_past_body
  /\ App.book_appointment empty_db zero_patient_quarter_past_body
     = (empty_db, Json 400 msg_required).
Proof.
  repeat split; try (vm_compute; reflexivity).
  intros [H | [H | [H | H]]]; discriminate H.
Qed.

(** ** Beyond the claims *)

(** *** What a request can do to the store *)

Lemma untouched_rows (s : db) (aid : Z) (f : appointment -> appointment) :
  filter (has_id aid) (rows s) = [] ->
  mkDb (map (fun r => if has_id aid r then f r else r) (rows s)) (auto_increment s) = s.
Proof.
  intros H. rewrite filter_nil_iff in H.
  rewrite map_unchanged; [apply db_eta|].
  intros r Hr. rewrite (H r Hr). reflexivity.
Qed.

Lemma undeleted_rows (s : db) (aid : Z) :
  filter (has_id aid) (rows s) = [] ->
  mkDb (filter (fun r => negb (has_id aid r)) (rows s)) (auto_increment s) = s.
Proof.
  intros H. rewrite filter_nil_iff in H.
  rewrite filter_all; [apply db_eta|].
  intros r Hr. rewrite (H r Hr). reflexivity.
Qed.

Lemma length_eqb_zero {A : Type} (l : list A) :
  (List.length l =? 0)%nat = true -> l = [].
Proof. destruct l; [reflexivity | discriminate]. Qed.

Lemma book_outcome (s : db) (body : Body.t) :
  App.book_appointment s body
  = (with_row s (booked_row s body), Json 201 msg_success)
  \/ (fst (App.book_appointment s body) = s
      /\ http_status (snd (App.book_appointment s body)) <> 201).
Proof.
  unfold App.book_appointment, checkDoctorAvailabilityQuery, insertQuery.
  destruct (negb _ || negb _ || negb _ || negb _);
    [right; split; [reflexivity | discriminate]|].
  destruct (App.isValidTimeSlot _) as [[|]|];
    try (right; split; [reflexivity | discriminate]).
  destruct (0 <? List.length _)%nat;
    [right; split; [reflexivity | discriminate] | left; reflexivity].
Qed.

Lemma variant_book_outcome (s : db) (body : Body.t) :
  Variant.book_appointment s body
  = (with_row s (booked_row s body), Json 201 msg_success)
  \/ (fst (Variant.book_appointment s body) = s
      /\ http_status (snd (Variant.book_appointment s body)) <> 201).
Proof.
  unfold Variant.book_appointment, checkDoctorAvailabilityQuery, insertQuery.
  destruct (negb _ || negb _ || negb _ || negb _);
    [right; split; [reflexivity | discriminate]|].
  destruct (0 <? List.length _)%nat;
    [right; split; [reflexivity | discriminate] | left; reflexivity].
Qed.

(** A booking either appends exactly the booked row and answers 201, or
    leaves the store as it was; an update or a deletion that is not answered
    200 leaves the store as it was. *)
Theorem failed_requests_change_nothing (s : db) (aid : Z) (body : Body.t) :
  (App.book_appointment s body
   = (with_row s (booked_row s body), Json 201 msg_success)
   \/ (fst (App.book_appointment s body) = s
       /\ http_status (snd (App.book_appointment s body)) <> 201))
  /\ (Variant.book_appointment s body
      = (with_row s (booked_row s body), Json 201 msg_success)
      \/ (fst (Variant.book_appointment s body) = s
          /\ http_status (snd (Variant.book_appointment s body)) <> 201))
  /\ (snd (App.update_appointment s aid body) = Json 200 msg_updated
      \/ fst (App.update_appointment s aid body) = s)
  /\ (snd (App.delete_appointment s aid) = Json 200 msg_deleted
      \/ fst (App.delete_appointment s aid) = s).
Proof.
  split; [apply book_outcome|]. split; [apply variant_book_outcome|]. split.
  - unfold App.update_appointment, updateQuery.
    destruct (negb _ || negb _); [right; reflexivity|].
    destruct (App.isValidTimeSlot _) as [[|]|]; try (right; reflexivity).
    destruct (checkAvailabilityQuery _ _ _ _) as [|results]; [right; reflexivity|].
    destruct (0 <? List.length results)%nat; [right; reflexivity|].
    destruct (List.length _ =? 0)%nat eqn:E; [right | left; reflexivity].
    cbn [fst]. apply (untouched_rows s aid), length_eqb_zero, E.
  - unfold App.delete_appointment, deleteQuery.
    destruct (List.length _ =? 0)%nat eqn:E; [right | left; reflexivity].
    cbn [fst]. apply undeleted_rows, length_eqb_zero, E.
Qed.


(** *** Repeating an update *)





(** *** Cancelling *)




(** On a store whose counter is ahead of its identifiers, deleting the
    appointment that a booking has just created gives back the table as it
    was before the booking; only the counter has moved on. *)
Theorem book_then_delete (s : db) (body : Body.t) :
  counter_fresh s ->
  snd (App.book_appointment s body) = Json 201 msg_success ->
  App.delete_appointment (fst (App.book_appointment s body)) (auto_increment s)
  = (mkDb (rows s) (auto_increment s + 1), Json 200 msg_deleted).
Proof.
  intros Hfresh H201.
  destruct (book_outcome s body) as [E | [_ Hne]].
  2: { rewrite H201 in Hne. contradiction Hne. reflexivity. }
  rewrite E. cbn [fst]. unfold App.delete_appointment, deleteQuery, with_row.
  cbn [rows auto_increment].
  assert (Hold : forall r, In r (rows s) -> has_id (auto_increment s) r = false).
  { intros r Hr. apply has_id_false. specialize (Hfresh r Hr). lia. }
  assert (Hnew : has_id (auto_increment s) (booked_row s body) = true).
  { apply has_id_true. reflexivity. }
  rewrite !filter_app. cbn [filter]. rewrite Hnew. cbn [negb].
  rewrite (proj2 (filter_nil_iff _ _) Hold), filter_all.
  - rewrite app_nil_r. reflexivity.
  - intros r Hr. rewrite (Hold r Hr). reflexivity.
Qed.

Lemma sample_db_counter_fresh : counter_fresh sample_db.
Proof. intros r Hr. in_rows Hr; cbn; lia. Defined.

Lemma book_then_delete_witness :
  App.delete_appointment (fst (App.book_appointment sample_db sample_body)) 5
  = (mkDb (rows sample_db) 6, Json 200 msg_deleted).
Proof.
  apply (book_then_delete sample_db sample_body).
  - exact sample_db_counter_fresh.
  - vm_compute. reflexivity.
Defined.

(** *** The default slots *)

Lemma valid_bookingb_sound (a : Body.t) : valid_bookingb a = true -> valid_booking a.
Proof.
  unfold valid_bookingb, valid_booking, fields_present.
  rewrite !andb_true_iff. intros [[[[Hp Hd] Hdate] Htime] Hv].
  destruct (App.isValidTimeSlot (Body.appointment_time a)) as [[|]|]; try discriminate.
  auto.
Qed.

Lemma default_appointments_valid (a : Body.t) :
  In a App.appointments -> valid_booking a.
Proof.
  assert (H : forallb valid_bookingb App.appointments = true) by (vm_compute; reflexivity).
  rewrite forallb_forall in H. intros Ha. apply valid_bookingb_sound, H, Ha.
Qed.

Lemma variant_appointments_default (a : Body.t) :
  In a Variant.appointments -> In a App.appointments.
Proof.
  intros H. unfold Variant.appointments in H. unfold App.appointments.
  cbn [In] in *. tauto.
Qed.

Lemma for_patient_valid (p : JS.value) (a : Body.t) :
  JS.truthy p = true -> valid_booking a -> valid_booking (for_patient p a).
Proof. intros Hp [(_ & Hd & Hdate & Htime) Hv]. repeat split; assumption. Qed.

Lemma booking_holds_slot (s : db) (p : JS.value) (a : Body.t) :
  booking_exists s (requested_booking a) ->
  slot_held s (requested_slot (for_patient p a)).
Proof.
  intros (r & Hr & Hb). exists r. split; [exact Hr|].
  unfold booking, requested_booking in Hb. injection Hb as _ Hd Hdate Htime.
  unfold slot, requested_slot, for_patient. cbn. congruence.
Qed.

Lemma variant_book_taken (s : db) (body : Body.t) :
  fields_present body -> slot_held s (requested_slot body) ->
  Variant.book_appointment s body = (s, Json 400 msg_booked).
Proof.
  intros Hp Hheld. unfold Variant.book_appointment.
  rewrite (fields_present_test body Hp). unfold checkDoctorAvailabilityQuery.
  rewrite (slot_held_filter s body Hp Hheld). reflexivity.
Qed.

(** Once the seed routine has run, on whatever store, each of its tuples has
    its row, and a booking of that doctor, date and time is answered 400
    'Doctor is already booked at this time', whoever the patient is. Both
    files, each with its own tuples. *)
Theorem default_slots_refused (s : db) (p : JS.value) (a : Body.t) :
  JS.truthy p = true ->
  (In a App.appointments ->
     booking_exists (App.insertDefaultAppointments s) (requested_booking a)
     /\ App.book_appointment (App.insertDefaultAppointments s) (for_patient p a)
        = (App.insertDefaultAppointments s, Json 400 msg_booked))
  /\ (In a Variant.appointments ->
        booking_exists (Variant.insertDefaultAppointments s) (requested_booking a)
        /\ Variant.book_appointment (Variant.insertDefaultAppointments s) (for_patient p a)
           = (Variant.insertDefaultAppointments s, Json 400 msg_booked)).
Proof.
  intros Hp. split; intros Ha.
  - pose proof (default_appointments_valid a Ha) as Hv.
    assert (Hex : booking_exists (App.insertDefaultAppointments s) (requested_booking a)).
    { apply seed_with_covers; [apply Hv | exact Ha]. }
    split; [exact Hex|].
    apply book_taken; [apply for_patient_valid; assumption|].
    apply booking_holds_slot, Hex.
  - pose proof (default_appointments_valid a (variant_appointments_default a Ha)) as Hv.
    assert (Hex : booking_exists (Variant.insertDefaultAppointments s) (requested_booking a)).
    { apply seed_with_covers; [apply Hv | exact Ha]. }
    split; [exact Hex|].
    apply variant_book_taken; [apply for_patient_valid; assumption|].
    apply booking_holds_slot, Hex.
Qed.

Lemma default_slots_refused_witness :
  App.book_appointment (App.insertDefaultAppointments sample_db)
    (for_patient (JS.Num 77) (appt 3 5 "2025-04-14" "10:00"))
  = (App.insertDefaultAppointments sample_db, Json 400 msg_booked).
Proof.
  destruct (default_slots_refused sample_db (JS.Num 77) (appt 3 5 "2025-04-14" "10:00")
              eq_refl) as [H _].
  apply H. unfold App.appointments. cbn [In]. do 22 right. left. reflexivity.
Defined.

(** *** The two files *)

(** The variant answers a booking as [app.js] does and leaves the same
    store, unless [app.js] stops at its time-slot validation. *)
Theorem variant_differs_on_validation_only (s : db) (body : Body.t) :
  Variant.book_appointment s body = App.book_appointment s body
  \/ snd (App.book_appointment s body) = Json 400 msg_interval
  \/ snd (App.book_appointment s body) = Uncaught.
Proof.
  unfold Variant.book_appointment, App.book_appointment.
  destruct (negb _ || negb _ || negb _ || negb _); [left; reflexivity|].
  destruct (App.isValidTimeSlot _) as [[|]|];
    [left; reflexivity | right; left; reflexivity | right; right; reflexivity].
Qed.






(** *** Edges of the validator *)

Lemma split_whole (s : string) :
  ~ In ":"%char (chars s) -> JS.split ":" s = [s].
Proof.
  intros H. unfold JS.split. fold (chars s).
  rewrite (split_chars_whole _ _ H). simpl. rewrite string_of_chars. reflexivity.
Qed.

Lemma drop_space_blank (l : list ascii) :
  forallb JS.is_space l = true -> JS.drop_space l = [].
Proof.
  induction l as [|c l IH]; simpl; [reflexivity|].
  intros H. apply andb_true_iff in H. destruct H as [-> H]. exact (IH H).
Qed.

Lemma Number_blank (s : string) :
  forallb JS.is_space (chars s) = true -> JS.Number s = JS.Finite 0.
Proof.
  intros H. unfold JS.Number, JS.number_of_chars, JS.trim. fold (chars s).
  rewrite (drop_space_blank _ H). reflexivity.
Qed.

Lemma blank_no_colon (l : list ascii) :
  forallb JS.is_space l = true -> ~ In ":"%char l.
Proof.
  intros H Hin. rewrite forallb_forall in H. specialize (H _ Hin). discriminate H.
Qed.

(** A time string without a colon is rejected; one whose minutes are blank
    (nothing, or white space only, after the colon) is accepted; whatever
    follows a second colon is not looked at; and a time that is not a string
    makes the validator throw. *)
Theorem isValidTimeSlot_edges :
  (forall s : string,
      ~ In ":"%char (chars s) -> App.isValidTimeSlot (JS.Str s) = JS.Return false)
  /\ (forall hours blank : string,
        ~ In ":"%char (chars hours) -> forallb JS.is_space (chars blank) = true ->
        App.isValidTimeSlot (JS.Str (hours ++ ":" ++ blank)%string) = JS.Return true)
  /\ (forall hours minutes tail : string,
        ~ In ":"%char (chars hours) -> ~ In ":"%char (chars minutes) ->
        App.isValidTimeSlot (JS.Str (hours ++ ":" ++ minutes ++ ":" ++ tail)%string)
        = App.isValidTimeSlot (JS.Str (hours ++ ":" ++ minutes)%string))
  /\ (forall v : JS.value,
        (forall s, v <> JS.Str s) -> App.isValidTimeSlot v = JS.Throw).
Proof.
  split; [|split; [|split]].
  - intros s H. unfold App.isValidTimeSlot. rewrite (split_whole s H). reflexivity.
  - intros hours blank Hh Hb. unfold App.isValidTimeSlot.
    rewrite (split_time hours blank Hh (blank_no_colon _ Hb)). cbn [map].
    rewrite (Number_blank blank Hb). reflexivity.
  - intros hours minutes tail Hh Hm. unfold App.isValidTimeSlot.
    destruct (split_time_tail hours minutes tail Hh Hm) as (pieces & ->).
    rewrite (split_time hours minutes Hh Hm). reflexivity.
  - intros v Hv. destruct v; try reflexivity. destruct (Hv s eq_refl).
Qed.

(** *** Rows of a reachable store *)

Lemma book_cases_valid (s : db) (body : Body.t) :
  fst (App.book_appointment s body) = s
  \/ (valid_booking body
      /\ fst (App.book_appointment s body) = with_row s (booked_row s body)).
Proof.
  unfold App.book_appointment, checkDoctorAvailabilityQuery, insertQuery.
  destruct (JS.truthy (Body.patient_id body)) eqn:Hp; [|left; reflexivity].
  destruct (JS.truthy (Body.doctor_id body)) eqn:Hd; [|left; reflexivity].
  destruct (JS.truthy (Body.appointment_date body)) eqn:Hdate; [|left; reflexivity].
  destruct (JS.truthy (Body.appointment_time body)) eqn:Htime; [|left; reflexivity].
  cbn [negb orb].
  destruct (App.isValidTimeSlot (Body.appointment_time body)) as [[|]|] eqn:Hv;
    try (left; reflexivity).
  destruct (0 <? List.length _)%nat; [left; reflexivity|].
  right. split; [repeat split; assumption | reflexivity].
Qed.









(** *** The listings *)

Lemma insert_by_Permutation {A : Type} (le : A -> A -> bool) (x : A) (l : list A) :
  Permutation (insert_by le x l) (x :: l).
Proof.
  induction l as [|y l IH]; simpl; [reflexivity|].
  destruct (le x y); [reflexivity|].
  rewrite IH. apply perm_swap.
Qed.

Lemma order_by_Permutation {A : Type} (le : A -> A -> bool) (l : list A) :
  Permutation (order_by le l) l.
Proof.
  induction l as [|x l IH]; simpl; [constructor|].
  rewrite insert_by_Permutation. constructor. exact IH.
Qed.

Lemma order_by_In {A : Type} (le : A -> A -> bool) (l : list A) (x : A) :
  In x (order_by le l) <-> In x l.
Proof.
  split; apply Permutation_in;
    [apply order_by_Permutation | apply Permutation_sym, order_by_Permutation].
Qed.



Lemma in_with_patient (patients : list Patient.t) (a : appointment) (x : listed) :
  In x (with_patient patients a)
  <-> listed_row x = a
      /\ exists p, In p patients
                   /\ sql_eq (patient_id a) (Patient.patient_id p) = true
                   /\ joined_name x = Patient.name p.
Proof.
  unfold with_patient. rewrite in_map_iff. split.
  - intros (p & <- & Hp). apply filter_In in Hp. split; [reflexivity|].
    exists p. tauto.
  - intros (E & p & Hp & Hq & Hn). exists p. split.
    + destruct x as [r n]. cbn in *. congruence.
    + apply filter_In. auto.
Qed.

Lemma in_with_doctor (doctors : list Doctor.t) (a : appointment) (x : listed) :
  In x (with_doctor doctors a)
  <-> listed_row x = a
      /\ exists d, In d doctors
                   /\ sql_eq (doctor_id a) (Doctor.doctor_id d) = true
                   /\ joined_name x = Doctor.name d.
Proof.
  unfold with_doctor. rewrite in_map_iff. split.
  - intros (d & <- & Hd). apply filter_In in Hd. split; [reflexivity|].
    exists d. tauto.
  - intros (E & d & Hd & Hq & Hn). exists d. split.
    + destruct x as [r n]. cbn in *. congruence.
    + apply filter_In. auto.
Qed.

Lemma in_doctor_query (as_id : JS.value -> JS.value)
    (time_le : JS.value -> JS.value -> bool) (patients : list Patient.t) (s : db)
    (doctorId date : JS.value) (x : listed) :
  In x (order_by (by_time time_le)
          (flat_map (with_patient patients)
             (filter (fun a => sql_eq (doctor_id a) (as_id doctorId)
                               && sql_eq (appointment_date a) date) (rows s))))
  <-> In (listed_row x) (rows s)
      /\ sql_eq (doctor_id (listed_row x)) (as_id doctorId) = true
      /\ sql_eq (appointment_date (listed_row x)) date = true
      /\ exists p, In p patients
                   /\ sql_eq (patient_id (listed_row x)) (Patient.patient_id p) = true
                   /\ joined_name x = Patient.name p.
Proof.
  rewrite order_by_In, in_flat_map. split.
  - intros (a & Ha & Hx). apply filter_In in Ha. destruct Ha as [Ha Hw].
    apply andb_true_iff in Hw. apply in_with_patient in Hx.
    destruct Hx as [E Hp]. rewrite E. tauto.
  - intros (Ha & Hd & Hdate & Hp). exists (listed_row x). split.
    + apply filter_In. split; [exact Ha|]. rewrite Hd, Hdate. reflexivity.
    + apply in_with_patient. auto.
Qed.

Lemma in_patient_query (as_id : JS.value -> JS.value)
    (date_le time_le : JS.value -> JS.value -> bool) (doctors : list Doctor.t)
    (s : db) (patientId : JS.value) (x : listed) :
  In x (order_by (by_date_time date_le time_le)
          (flat_map (with_doctor doctors)
             (filter (fun a => sql_eq (patient_id a) (as_id patientId)) (rows s))))
  <-> In (listed_row x) (rows s)
      /\ sql_eq (patient_id (listed_row x)) (as_id patientId) = true
      /\ exists d, In d doctors
                   /\ sql_eq (doctor_id (listed_row x)) (Doctor.doctor_id d) = true
                   /\ joined_name x = Doctor.name d.
Proof.
  rewrite order_by_In, in_flat_map. split.
  - intros (a & Ha & Hx). apply filter_In in Ha. destruct Ha as [Ha Hw].
    apply in_with_doctor in Hx. destruct Hx as [E Hd]. rewrite E. tauto.
  - intros (Ha & Hp & Hd). exists (listed_row x). split.
    + apply filter_In. auto.
    + apply in_with_doctor. auto.
Qed.




(** An appointment that a booking has just created is in the listing of its
    doctor for its date, with the name of each [Patient] row of its patient,
    and in the listing of its patient, with the name of each [Doctor] row of
    its doctor. *)
Theorem booked_appointment_is_listed (as_id : JS.value -> JS.value)
    (date_le time_le : JS.value -> JS.value -> bool)
    (patients : list Patient.t) (doctors : list Doctor.t)
    (s : db) (body : Body.t) :
  snd (App.book_appointment s body) = Json 201 msg_success ->
  (forall (p : Patient.t) (doctorId : JS.value),
      In p patients -> Patient.patient_id p = Body.patient_id body ->
      as_id doctorId = Body.doctor_id body ->
      exists results,
        list_doctor_appointments as_id time_le patients
          (fst (App.book_appointment s body)) doctorId (Body.appointment_date body)
        = Rows 200 results
        /\ In (mkListed (booked_row s body) (Patient.name p)) results)
  /\ (forall (d : Doctor.t) (patientId : JS.value),
        In d doctors -> Doctor.doctor_id d = Body.doctor_id body ->
        JS.truthy patientId = true -> as_id patientId = Body.patient_id body ->
        exists results,
          list_patient_appointments as_id date_le time_le doctors
            (fst (App.book_appointment s body)) patientId
          = Rows 200 results
          /\ In (mkListed (booked_row s body) (Doctor.name d)) results).
Proof.
  intros H201.
  destruct (book_cases_valid s body) as [E | [[(Hp & Hd & Hdate & Htime) _] E]].
  { destruct (book_outcome s body) as [E' | [_ Hne]].
    - rewrite E' in E. cbn [fst] in E. exfalso.
      assert (L : List.length (rows (with_row s (booked_row s body)))
                  = List.length (rows s)) by (rewrite E; reflexivity).
      cbn [with_row rows] in L. rewrite length_app in L. cbn in L. lia.
    - rewrite H201 in Hne. contradiction Hne. reflexivity. }
  rewrite E.
  assert (Hin : In (booked_row s body) (rows (with_row s (booked_row s body)))).
  { cbn [with_row rows]. apply in_or_app. right. left. reflexivity. }
  split.
  - intros p doctorId Hpin Hpid Hdoc.
    unfold list_doctor_appointments, doctor_query. rewrite Hdate. cbn [negb].
    eexists. split; [reflexivity|].
    apply in_doctor_query. cbn [listed_row joined_name].
    split; [exact Hin|]. unfold booked_row.
    cbn [patient_id doctor_id appointment_date].
    rewrite Hdoc, (sql_eq_refl _ (truthy_not_null _ Hd)),
      (sql_eq_refl _ (truthy_not_null _ Hdate)).
    split; [reflexivity|]. split; [reflexivity|]. exists p.
    rewrite Hpid, (sql_eq_refl _ (truthy_not_null _ Hp)). auto.
  - intros d patientId Hdin Hdid Htruthy Hpat.
    unfold list_patient_appointments, patient_query. rewrite Htruthy. cbn [negb].
    eexists. split; [reflexivity|].
    apply in_patient_query. cbn [listed_row joined_name].
    split; [exact Hin|]. unfold booked_row.
    cbn [patient_id doctor_id].
    rewrite Hpat, (sql_eq_refl _ (truthy_not_null _ Hp)).
    split; [reflexivity|]. exists d.
    rewrite Hdid, (sql_eq_refl _ (truthy_not_null _ Hd)). auto.
Qed.

(** Once an appointment is deleted no listing shows it: no row of a listing
    read after the deletion carries the deleted identifier. *)
Theorem deleted_appointment_not_listed (as_id : JS.value -> JS.value)
    (date_le time_le : JS.value -> JS.value -> bool)
    (patients : list Patient.t) (doctors : list Doctor.t)
    (s : db) (aid : Z) (x : listed) :
  (forall doctorId date code results,
      list_doctor_appointments as_id time_le patients
        (fst (App.delete_appointment s aid)) doctorId date = Rows code results ->
      In x results -> appointment_id (listed_row x) <> aid)
  /\ (forall patientId code results,
        list_patient_appointments as_id date_le time_le doctors
          (fst (App.delete_appointment s aid)) patientId = Rows code results ->
        In x results -> appointment_id (listed_row x) <> aid).
Proof.
  assert (E : rows (fst (App.delete_appointment s aid))
              = filter (fun r => negb (has_id aid r)) (rows s)).
  { unfold App.delete_appointment, deleteQuery.
    destruct (List.length _ =? 0)%nat; reflexivity. }
  assert (Hrow : In (listed_row x) (rows (fst (App.delete_appointment s aid))) ->
                 appointment_id (listed_row x) <> aid).
  { rewrite E. intros H. apply filter_In in H.
    apply has_id_false, negb_true_iff, H. }
  split.
  - intros doctorId date code results H Hx. apply Hrow.
    unfold list_doctor_appointments, doctor_query in H.
    destruct (negb (JS.truthy date)); [discriminate|]. injection H as _ <-.
    apply in_doctor_query in Hx. apply Hx.
  - intros patientId code results H Hx. apply Hrow.
    unfold list_patient_appointments, patient_query in H.
    destruct (negb (JS.truthy patientId)); [discriminate|]. injection H as _ <-.
    apply in_patient_query in Hx. apply Hx.
Qed.

Lemma booked_appointment_is_listed_witness :
  exists results,
    list_doctor_appointments decimal_id text_le sample_patients
      (fst (App.book_appointment sample_db sample_body)) (JS.Str "3") (JS.Str "2025-05-02")
    = Rows 200 results
    /\ In (mkListed (booked_row sample_db sample_body) (JS.Str "Grace")) results.
Proof.
  assert (H201 : snd (App.book_appointment sample_db sample_body) = Json 201 msg_success)
    by (vm_compute; reflexivity).
  destruct (booked_appointment_is_listed decimal_id text_le text_le sample_patients
              sample_doctors sample_db sample_body H201) as [H _].
  apply (H (Patient.make (JS.Num 7) (JS.Str "Grace")) (JS.Str "3"));
    [simpl; auto | reflexivity | reflexivity].
Defined.


